(** * Vampire tool-info module of BenchExec ([benchexec/tools/vampire.py])

    A shallow embedding of the methods of [Tool] that build the command line
    and classify a finished run, with the Python primitives they rely on, and
    the properties of the adapter stated over that embedding. *)

From Stdlib Require Import ZArith List String Ascii Bool Lia DecimalString.
Import ListNotations.

Open Scope string_scope.
Open Scope Z_scope.
Open Scope list_scope.

(* ================================================================= *)
(** * Python primitives used by the module *)

(** Exceptions the modelled code can raise, with their message. *)
Inductive PyExn : Type :=
| AssertionError (msg : string)
| IndexError (msg : string)
| AttributeError (msg : string)
| ZeroDivisionError (msg : string)
| OverflowError (msg : string).

(** Outcome of a fallible computation. *)
Inductive PyResult (A : Type) : Type :=
| Return (a : A)
| Raise (e : PyExn).

Arguments Return {A} a.
Arguments Raise {A} e.

Definition bind {A B : Type} (m : PyResult A) (k : A -> PyResult B) : PyResult B :=
  match m with
  | Return a => k a
  | Raise e => Raise e
  end.

Declare Scope py_scope.
Delimit Scope py_scope with py.
Notation "x <- m ;; k" := (bind m (fun x => k))
  (at level 61, m at next level, right associativity) : py_scope.

Module Py.

(** [str.isspace] on one character.  A character of the model is a code point
    below 256; these are the code points of that range Python counts as
    white space. *)
Definition isspace (c : ascii) : bool :=
  let n := N_of_ascii c in
  (((9 <=? n) && (n <=? 13)) || ((28 <=? n) && (n <=? 32))
   || (n =? 133) || (n =? 160))%N.

(** [s.startswith(p)] *)
Fixpoint startswith (s p : string) {struct p} : bool :=
  match p with
  | EmptyString => true
  | String c p' =>
      match s with
      | EmptyString => false
      | String d s' => Ascii.eqb c d && startswith s' p'
      end
  end.

(** [s[n:]] for [0 <= n] *)
Fixpoint drop (n : nat) (s : string) : string :=
  match n, s with
  | O, _ => s
  | S _, EmptyString => EmptyString
  | S n', String _ s' => drop n' s'
  end.

(** The loop of [s.split()]: [word] is the word being read. *)
Fixpoint split_from (word : string) (s : string) : list string :=
  match s with
  | EmptyString =>
      match word with
      | EmptyString => []
      | _ => [word]
      end
  | String c s' =>
      if isspace c then
        match word with
        | EmptyString => split_from EmptyString s'
        | _ => word :: split_from EmptyString s'
        end
      else split_from (word ++ String c EmptyString)%string s'
  end.

(** [s.split()]: the maximal runs of characters that are not white space. *)
Definition split (s : string) : list string := split_from EmptyString s.

(** [x in l] for a list of strings *)
Definition contains (x : string) (l : list string) : bool :=
  existsb (String.eqb x) l.

(** [l[i]] for [0 <= i] *)
Definition index {A : Type} (l : list A) (i : nat) : PyResult A :=
  match nth_error l i with
  | Some a => Return a
  | None => Raise (IndexError "list index out of range")
  end.

(** [str(n)], also what an f-string prints for an [int] *)
Definition str (n : Z) : string := NilZero.string_of_int (Z.to_int n).

(** A finite [float]: the binary64 number [mant * 2 ^ expo]. *)
Record float : Type := { mant : Z; expo : Z }.

(** [n / d] rounded to the nearest integer, ties to the even one ([0 < d]). *)
Definition round_half_even (n d : Z) : Z :=
  let q := n / d in
  let r := n mod d in
  if 2 * r <? d then q
  else if d <? 2 * r then q + 1
  else if Z.even q then q else q + 1.

(** [a / b] on two [int]s: the quotient correctly rounded to binary64
    (53 significant bits, exponent at least [-1074]); a quotient that rounds
    to [2 ^ 1024] or more raises [OverflowError]. *)
Definition true_divide (a b : Z) : PyResult float :=
  if b =? 0 then Raise (ZeroDivisionError "division by zero")
  else if a =? 0 then Return {| mant := 0; expo := 0 |}
  else
    let A := Z.abs a in
    let B := Z.abs b in
    let kk := Z.log2 A - Z.log2 B in
    let k := if A * 2 ^ Z.max 0 (- kk) <? B * 2 ^ Z.max 0 kk then kk - 1 else kk in
    let e := Z.max (k - 52) (-1074) in
    let M := round_half_even (A * 2 ^ Z.max 0 (- e)) (B * 2 ^ Z.max 0 e) in
    if (0 <=? e) && (2 ^ 1024 <=? M * 2 ^ e)
    then Raise (OverflowError "integer division result too large for a float")
    else Return {| mant := Z.sgn a * Z.sgn b * M; expo := e |}.

(** [int(x)] on a finite [float]: truncation towards zero. *)
Definition int (x : float) : Z :=
  if 0 <=? expo x then mant x * 2 ^ expo x
  else Z.quot (mant x) (2 ^ (- expo x)).

(** [s.lstrip()] *)
Fixpoint lstrip (s : string) : string :=
  match s with
  | EmptyString => EmptyString
  | String c s' => if isspace c then lstrip s' else s
  end.

(** [s.rstrip()] *)
Fixpoint rstrip (s : string) : string :=
  match s with
  | EmptyString => EmptyString
  | String c s' =>
      match rstrip s' with
      | EmptyString => if isspace c then EmptyString else String c EmptyString
      | r => String c r
      end
  end.

(** [s.strip()] *)
Definition strip (s : string) : string := rstrip (lstrip s).

(** The loop of [s.split(sep)] for a separator of one character: [word] is
    the part being read. *)
Fixpoint split_on_from (sep : ascii) (word : string) (s : string) : list string :=
  match s with
  | EmptyString => [word]
  | String c s' =>
      if Ascii.eqb c sep then word :: split_on_from sep EmptyString s'
      else split_on_from sep (word ++ String c EmptyString)%string s'
  end.

(** [s.split(sep)] for a separator of one character: the parts between the
    occurrences of [sep], empty ones included. *)
Definition split_on (sep : ascii) (s : string) : list string :=
  split_on_from sep EmptyString s.

End Py.

(* ================================================================= *)
(** * The parts of BenchExec the module is called with *)

(** The constants of [benchexec.result] that the module returns.  Their
    values are not fixed here: the development holds for every choice. *)
Class ResultConstants : Type := {
  RESULT_TRUE_PROP : string;
  RESULT_FALSE_PROP : string;
  RESULT_UNKNOWN : string;
  RESULT_ERROR : string
}.

(** [Task]: the input files of one run. *)
Record Task : Type := { input_files : list string }.

(** [ResourceLimits]: wall-clock limit in seconds and memory ceiling in
    bytes, each [None] when not requested. *)
Record ResourceLimits : Type := {
  walltime : option Z;
  memory : option Z
}.

(** Modelled from the spec: the class [RunOutput] is not among the sources.
    The output is the sequence of its lines, iterated in order any number of
    times. *)
Definition RunOutput : Type := list string.

(** Modelled from the spec: [RunOutput.text], the accessor for the whole
    output used for prefix checks: the lines in order, each followed by a
    line feed. *)
Definition text (output : RunOutput) : string :=
  fold_right (fun line rest => (line ++ String "010"%char rest)%string) EmptyString output.

(** Modelled from the spec: the exit status of a run record, an object with
    a numeric [value]. *)
Record ProcessExitCode : Type := { value : Z }.

(** Modelled from the spec: the run record; its [exit_code] is absent or an
    exit-status object. *)
Record Run : Type := {
  exit_code : option ProcessExitCode;
  output : RunOutput
}.

(** Modelled from the spec: the truth value of [run.exit_code] in a
    condition, the class of the exit status not being among the sources.  The
    process exited abnormally when the status is a failure: an absent status
    is false, an object with exit value 0 is false, an object with any other
    value is true. *)
Definition truthy (c : option ProcessExitCode) : bool :=
  match c with
  | None => false
  | Some c => negb (value c =? 0)
  end.

(** [run.exit_code.value]; the attribute does not exist on [None]. *)
Definition exit_value (c : option ProcessExitCode) : PyResult Z :=
  match c with
  | Some c => Return (value c)
  | None => Raise (AttributeError "'NoneType' object has no attribute 'value'")
  end.

(* ================================================================= *)
(** * Commands over the caller's option list

    [cmdline] extends the list object it is given ([options += ...]), so the
    list is threaded as state: a command maps the current content of the
    list to an outcome and the content afterwards. *)

Definition Cmd (A : Type) : Type := list string -> PyResult A * list string.

Definition cret {A : Type} (a : A) : Cmd A := fun opts => (Return a, opts).

Definition cbind {A B : Type} (m : Cmd A) (k : A -> Cmd B) : Cmd B :=
  fun opts =>
    match m opts with
    | (Return a, opts') => k a opts'
    | (Raise e, opts') => (Raise e, opts')
    end.

(** Read the list. *)
Definition options_now : Cmd (list string) := fun opts => (Return opts, opts).

(** [options += tokens] *)
Definition extend (tokens : list string) : Cmd unit :=
  fun opts => (Return tt, (opts ++ tokens)%list).

(** A pure fallible computation as a command. *)
Definition lift {A : Type} (m : PyResult A) : Cmd A := fun opts => (m, opts).

(** [assert cond, msg] *)
Definition assert_ (cond : bool) (msg : string) : Cmd unit :=
  if cond then cret tt else lift (Raise (AssertionError msg)).

(** [if cond: body] *)
Definition when (cond : bool) (body : Cmd unit) : Cmd unit :=
  if cond then body else cret tt.

Declare Scope cmd_scope.
Delimit Scope cmd_scope with cmd.
Notation "x <- m ;; k" := (cbind m (fun x => k))
  (at level 61, m at next level, right associativity) : cmd_scope.
Notation "m ;; k" := (cbind m (fun _ => k))
  (at level 61, right associativity) : cmd_scope.

(* ================================================================= *)
(** * class Tool *)

Module Tool.
Section Methods.

Context {results : ResultConstants}.

Definition name : string := "Vampire".

(** ** executable *)

(** [tool_locator.find_executable] belongs to the harness and is a
    parameter. *)
Definition executable (find_executable : string -> PyResult string) : PyResult string :=
  find_executable "vampire".

(** ** version *)

(** [self._version_from_tool] belongs to the base class and is a parameter,
    called with the executable and the line prefix. *)
Definition version (version_from_tool : string -> string -> PyResult string)
    (executable : string) : PyResult string :=
  (line <- version_from_tool executable "Vampire" ;;
   let line := Py.strip line in
   line <- Py.index (Py.split_on " " line) 0 ;;
   Return (Py.strip line))%py.

(** ** environment *)

(** The returned dictionary, as the list of its items. *)
Definition environment (executable : string) : list (string * list (string * Z)) :=
  [("keepEnv", [("TPTP", 1)])].

(** ** cmdline *)

(** The first component is what the call returns or raises, the second the
    content of the caller's [options] list when the call ends. *)
Definition cmdline (executable : string) (options : list string)
    (task : Task) (rlimits : ResourceLimits) : PyResult (list string) * list string :=
  (assert_ (Nat.leb (List.length (input_files task)) 1) "only one input file supported" ;;
   opts <- options_now ;;
   when (negb (Py.contains "-t" opts) && negb (Py.contains "--time_limit" opts))
     (match walltime rlimits with
      | None => extend ["-t"; "0"]
      | Some w => extend ["-t"; (Py.str w ++ "s")%string]
      end) ;;
   opts <- options_now ;;
   when (negb (Py.contains "-m" opts) && negb (Py.contains "--memory_limit" opts))
     (match memory rlimits with
      | None => cret tt
      | Some m =>
          x <- lift (Py.true_divide m (1024 * 1024)) ;;
          let memory_mb := Py.int x in
          extend ["-m"; Py.str memory_mb]
      end) ;;
   opts <- options_now ;;
   cret ([executable] ++ opts ++ input_files task)%list)%cmd options.

(** ** get_szs_status *)

(** The [for] loop, entered with the current value of [status]. *)
Fixpoint get_szs_status_loop (status : option string) (output : list string)
    : PyResult (option string) :=
  match output with
  | [] => Return status
  | line :: rest =>
      if Py.startswith line "% SZS status" then
        match status with
        | None =>
            let words := Py.split line in
            (status' <- (if Nat.leb 4 (List.length words)
                         then (w <- Py.index words 3 ;; Return (Some w))
                         else Return None) ;;
             get_szs_status_loop status' rest)%py
        | Some _ => Return None
        end
      else get_szs_status_loop status rest
  end.

Definition get_szs_status (output : RunOutput) : PyResult (option string) :=
  get_szs_status_loop None output.

(** ** get_other_termination_reasons *)

Definition reason_prefix : string := "% Termination reason: ".

Fixpoint get_other_termination_reasons (output : RunOutput) : list string :=
  match output with
  | [] => []
  | line :: rest =>
      if Py.startswith line reason_prefix
      then Py.drop (String.length reason_prefix) line :: get_other_termination_reasons rest
      else get_other_termination_reasons rest
  end.

(** ** determine_result *)

Definition SZS_UNSAT : list string := ["ContradictoryAxioms"; "Theorem"; "Unsatisfiable"].
Definition SZS_SAT : list string := ["CounterSatisfiable"; "Satisfiable"].
Definition SZS_FAIL : list string := ["Timeout"; "GaveUp"; "User"].

(** [status == s] for a status that may be [None] *)
Definition status_is (status : option string) (s : string) : bool :=
  match status with
  | Some t => String.eqb t s
  | None => false
  end.

(** [status in l] for a status that may be [None] *)
Definition status_in (status : option string) (l : list string) : bool :=
  match status with
  | Some t => Py.contains t l
  | None => false
  end.

(** [reasons == l] *)
Definition reasons_are (reasons l : list string) : bool :=
  if list_eq_dec string_dec reasons l then true else false.

Definition determine_result (run : Run) : PyResult string :=
  (status <- get_szs_status (output run) ;;
   if truthy (exit_code run) then
     if status_is status "Timeout" then Return "TIMEOUT"
     else
       (* the code from [if run.exit_code.value == 1:] on, reached from both
          ways out of the test for exit code 4 *)
       let exit_code_1 : PyResult string :=
         v <- exit_value (exit_code run) ;;
         if v =? 1 then
           let reasons := get_other_termination_reasons (output run) in
           if reasons_are reasons ["Time limit"] then Return "TIMEOUT"
           else if reasons_are reasons ["Refutation not found, incomplete strategy"]
           then Return "Incomplete"
           else if reasons_are reasons ["Refutation not found, non-redundant clauses discarded"]
           then Return "Incomplete"
           else Return RESULT_ERROR
         else Return RESULT_ERROR in
       v <- exit_value (exit_code run) ;;
       if v =? 4 then
         if Py.startswith (text (output run)) "Parsing error"
         then Return "Parsing error"
         else exit_code_1
       else exit_code_1
   else
     if status_in status SZS_UNSAT then Return RESULT_TRUE_PROP
     else if status_in status SZS_SAT then Return RESULT_FALSE_PROP
     else Return RESULT_UNKNOWN)%py.

(** ** get_value_from_output *)

(** [x or d] for a string [x] that may be [None]: [None] and the empty
    string are false. *)
Definition or_else (x : option string) (d : string) : string :=
  match x with
  | Some EmptyString | None => d
  | Some s => s
  end.

(** The first component is the line printed, the second what the call
    returns ([None] when the method ends without a [return]). *)
Definition get_value_from_output (output : RunOutput) (identifier : string)
    : string * PyResult (option string) :=
  (("get_value for id " ++ identifier)%string,
   if String.eqb identifier "szs-status"
   then (status <- get_szs_status output ;; Return (Some (or_else status "--")))%py
   else Return None).

End Methods.
End Tool.

(* ================================================================= *)
(** * Vocabulary of the statements *)

(** A line is a status line when it starts with the status prefix. *)
Definition is_status_line (line : string) : bool :=
  Py.startswith line "% SZS status".

(** Number of status lines of an output. *)
Definition count_status_lines (output : RunOutput) : nat :=
  List.length (filter is_status_line output).

(** A status line is well formed when it has a fourth word. *)
Definition well_formed (line : string) : bool :=
  Nat.leb 4 (List.length (Py.split line)).

(** The first line of the output exists and starts with [p]. *)
Definition first_line_startswith (output : RunOutput) (p : string) : bool :=
  match output with
  | [] => false
  | line :: _ => Py.startswith line p
  end.

(** [c] does not occur in [p]. *)
Fixpoint free_of (c : ascii) (p : string) : bool :=
  match p with
  | EmptyString => true
  | String d p' => negb (Ascii.eqb d c) && free_of c p'
  end.

(** The user options name a time limit, respectively a memory limit. *)
Definition has_time_option (options : list string) : bool :=
  Py.contains "-t" options || Py.contains "--time_limit" options.

Definition has_memory_option (options : list string) : bool :=
  Py.contains "-m" options || Py.contains "--memory_limit" options.

(** The value printed after [-t]. *)
Definition time_value (rlimits : ResourceLimits) : string :=
  match walltime rlimits with
  | None => "0"
  | Some w => (Py.str w ++ "s")%string
  end.

(** What the first block of [cmdline] appends to [options]. *)
Definition time_tokens (options : list string) (rlimits : ResourceLimits) : list string :=
  if has_time_option options then [] else ["-t"; time_value rlimits].

(** What the second block of [cmdline] appends to [options], or raises. *)
Definition memory_tokens (options : list string) (rlimits : ResourceLimits)
    : PyResult (list string) :=
  if has_memory_option options then Return []
  else
    match memory rlimits with
    | None => Return []
    | Some m =>
        (x <- Py.true_divide m (1024 * 1024) ;;
         Return ["-m"; Py.str (Py.int x)])%py
    end.

(** The strings [determine_result] can return. *)
Definition verdicts {results : ResultConstants} : list string :=
  ["TIMEOUT"; "Parsing error"; "Incomplete";
   RESULT_ERROR; RESULT_TRUE_PROP; RESULT_FALSE_PROP; RESULT_UNKNOWN].

(** A result vocabulary to run the model with. *)
Definition sample_results : ResultConstants :=
  {| RESULT_TRUE_PROP := "true";
     RESULT_FALSE_PROP := "false";
     RESULT_UNKNOWN := "unknown";
     RESULT_ERROR := "ERROR" |}.

(** A line is a reason line when it starts with the reason prefix. *)
Definition is_reason_line (line : string) : bool :=
  Py.startswith line Tool.reason_prefix.

(** A line the classifier reads past the first: a status or a reason line. *)
Definition is_relevant_line (line : string) : bool :=
  is_status_line line || is_reason_line line.

(** No character of [s] is white space. *)
Fixpoint no_whitespace (s : string) : bool :=
  match s with
  | EmptyString => true
  | String c s' => negb (Py.isspace c) && no_whitespace s'
  end.

(** Every character of [s] is white space. *)
Fixpoint all_whitespace (s : string) : bool :=
  match s with
  | EmptyString => true
  | String c s' => Py.isspace c && all_whitespace s'
  end.

(** [s] is empty or starts with a character that is not white space. *)
Definition head_not_space (s : string) : bool :=
  match s with
  | EmptyString => true
  | String c _ => negb (Py.isspace c)
  end.

(** A primitive that always yields [line], to run [version] with. *)
Definition tool_prints (line : string) : string -> string -> PyResult string :=
  fun _ _ => Return line.

(** The reading of the builder's contract under which an option list that
    names a time limit gets neither a [-t] nor a [-m] token appended. *)
Definition no_limit_token_after_time_option : Prop :=
  forall (executable : string) (options : list string) (task : Task)
         (rlimits : ResourceLimits) (appended : list string),
    has_time_option options = true ->
    snd (Tool.cmdline executable options task rlimits) = (options ++ appended)%list ->
    ~ In "-t" appended /\ ~ In "-m" appended.

(** The reading of the statistic extractor's contract under which one status
    line always yields a status string, and the placeholder stands for zero
    or several status lines. *)
Definition status_string_iff_unique_line : Prop :=
  forall output : RunOutput,
    (count_status_lines output = 1%nat ->
     exists s, Tool.get_szs_status output = Return (Some s) /\
               snd (Tool.get_value_from_output output "szs-status") = Return (Some s)) /\
    (count_status_lines output <> 1%nat ->
     snd (Tool.get_value_from_output output "szs-status") = Return (Some "--")).

(* ================================================================= *)
(** * Facts about the Python primitives *)

Lemma index_in_range {A : Type} (l : list A) (i : nat) :
  (i < List.length l)%nat -> exists a, Py.index l i = Return a /\ nth_error l i = Some a.
Proof.
  intros Hi. unfold Py.index.
  destruct (nth_error l i) as [a|] eqn:E.
  - now exists a.
  - apply nth_error_None in E. lia.
Qed.

(** Every word of [split] has a character. *)
Lemma split_from_nonempty (s word : string) :
  Forall (fun w => w <> EmptyString) (Py.split_from word s).
Proof.
  revert word. induction s as [|c s IH]; intros word; simpl.
  - destruct word; constructor; [discriminate | constructor].
  - destruct (Py.isspace c).
    + destruct word; [apply IH | constructor; [discriminate | apply IH]].
    + apply IH.
Qed.

Lemma split_nonempty (s w : string) : In w (Py.split s) -> w <> EmptyString.
Proof.
  intros Hin. pose proof (split_from_nonempty s EmptyString) as H.
  rewrite Forall_forall in H. now apply H.
Qed.

(** A printed integer is none of the option names. *)
Lemma str_not_option (n : Z) :
  Py.str n <> "-t" /\ Py.str n <> "--time_limit" /\
  Py.str n <> "-m" /\ Py.str n <> "--memory_limit".
Proof.
  unfold Py.str.
  destruct (Z.to_int n) as [d|d]; destruct d; simpl; repeat split; discriminate.
Qed.

(** Neither is a printed integer followed by the unit of seconds. *)
Lemma str_s_not_option (n : Z) :
  (Py.str n ++ "s")%string <> "-t" /\ (Py.str n ++ "s")%string <> "--time_limit" /\
  (Py.str n ++ "s")%string <> "-m" /\ (Py.str n ++ "s")%string <> "--memory_limit".
Proof.
  unfold Py.str.
  destruct (Z.to_int n) as [d|d]; destruct d; simpl; repeat split; discriminate.
Qed.

Lemma contains_app (x : string) (l1 l2 : list string) :
  Py.contains x (l1 ++ l2) = Py.contains x l1 || Py.contains x l2.
Proof. unfold Py.contains. apply existsb_app. Qed.

Lemma contains_In (x : string) (l : list string) :
  Py.contains x l = true <-> In x l.
Proof.
  unfold Py.contains. rewrite existsb_exists. split.
  - intros [y [Hin Heq]]. apply String.eqb_eq in Heq. now subst.
  - intros Hin. exists x. split; [assumption | apply String.eqb_refl].
Qed.

Lemma contains_pair (x a b : string) :
  x <> a -> x <> b -> Py.contains x [a; b] = false.
Proof.
  intros Ha Hb. unfold Py.contains. simpl.
  apply String.eqb_neq in Ha. apply String.eqb_neq in Hb.
  now rewrite Ha, Hb.
Qed.

(** A prefix without line feed is decided within the first line. *)
Lemma startswith_line_feed (p line rest : string) :
  free_of "010"%char p = true ->
  Py.startswith (line ++ String "010"%char rest)%string p = Py.startswith line p.
Proof.
  revert line. induction p as [|c p IH]; intros line Hp; simpl in *.
  - reflexivity.
  - apply andb_true_iff in Hp as [Hc Hp].
    destruct line as [|d line]; simpl.
    + apply negb_true_iff in Hc. now rewrite Hc.
    + now rewrite IH.
Qed.

Lemma startswith_text (output : RunOutput) (p : string) :
  free_of "010"%char p = true -> p <> EmptyString ->
  Py.startswith (text output) p = first_line_startswith output p.
Proof.
  intros Hfree Hp. destruct output as [|line rest]; simpl.
  - destruct p; [contradiction | reflexivity].
  - now apply startswith_line_feed.
Qed.

Lemma round_half_even_exact (q d : Z) : 0 < d -> Py.round_half_even (q * d) d = q.
Proof.
  intros Hd. unfold Py.round_half_even.
  rewrite Z.mod_mul by lia. rewrite Z.div_mul by lia.
  simpl. destruct (0 <? d) eqn:E; [reflexivity | apply Z.ltb_ge in E; lia].
Qed.

Lemma round_half_even_le (n d : Z) : Py.round_half_even n d <= n / d + 1.
Proof.
  unfold Py.round_half_even.
  destruct (2 * (n mod d) <? d); [lia|].
  destruct (d <? 2 * (n mod d)); [lia|].
  destruct (Z.even (n / d)); lia.
Qed.

(** The binary exponent of [A / 2 ^ 20] is [log2 A - 20]. *)
Lemma MiB_exponent (A : Z) :
  0 < A ->
  (A * 2 ^ Z.max 0 (- (Z.log2 A - 20)) <? 1048576 * 2 ^ Z.max 0 (Z.log2 A - 20)) = false.
Proof.
  intros Hpos. set (l := Z.log2 A).
  assert (Hl0 : 0 <= l) by apply Z.log2_nonneg.
  destruct (Z.log2_spec A Hpos) as [Hspec _]. fold l in Hspec.
  apply Z.ltb_ge.
  destruct (Z_le_gt_dec 20 l) as [H20|H20].
  - rewrite (Z.max_l 0 (- (l - 20))) by lia.
    rewrite (Z.max_r 0 (l - 20)) by lia.
    change 1048576 with (2 ^ 20). rewrite <- Z.pow_add_r by lia.
    replace (20 + (l - 20)) with l by lia. simpl. lia.
  - rewrite (Z.max_r 0 (- (l - 20))) by lia.
    rewrite (Z.max_l 0 (l - 20)) by lia.
    change (2 ^ 0) with 1. rewrite Z.mul_1_r.
    replace 1048576 with (2 ^ l * 2 ^ (- (l - 20))).
    + apply Z.mul_le_mono_nonneg_r; [apply Z.pow_nonneg; lia | exact Hspec].
    + rewrite <- Z.pow_add_r by lia.
      replace (l + - (l - 20)) with 20 by lia. reflexivity.
Qed.

(** Below [2 ^ 1043] bytes the division by a mebibyte stays in the range of
    binary64. *)
Lemma true_divide_MiB_returns (m : Z) :
  Z.abs m < 2 ^ 1043 -> exists x, Py.true_divide m (1024 * 1024) = Return x.
Proof.
  intros Hm.
  change (1024 * 1024) with 1048576.
  unfold Py.true_divide.
  change (1048576 =? 0) with false. cbv iota.
  destruct (m =? 0) eqn:Hm0; [eexists; reflexivity|].
  apply Z.eqb_neq in Hm0.
  assert (Hpos : 0 < Z.abs m) by lia.
  change (Z.abs 1048576) with 1048576.
  change (Z.log2 1048576) with 20.
  rewrite (MiB_exponent _ Hpos).
  set (A := Z.abs m) in *. set (l := Z.log2 A).
  assert (Hl0 : 0 <= l) by apply Z.log2_nonneg.
  assert (Hl : l < 1043) by (apply Z.log2_lt_pow2; lia).
  destruct (Z.log2_spec A Hpos) as [_ Hspec]. fold l in Hspec.
  rewrite (Z.max_l (l - 20 - 52) (-1074)) by lia.
  destruct (0 <=? l - 20 - 52) eqn:He; [|eexists; reflexivity].
  apply Z.leb_le in He.
  rewrite (Z.max_l 0 (- (l - 20 - 52))) by lia.
  rewrite (Z.max_r 0 (l - 20 - 52)) by lia.
  change (2 ^ 0) with 1. rewrite Z.mul_1_r.
  set (e := l - 20 - 52) in *.
  assert (He2 : 0 < 2 ^ e) by (apply Z.pow_pos_nonneg; lia).
  assert (HM : Py.round_half_even A (1048576 * 2 ^ e) <= 2 ^ 53).
  { pose proof (round_half_even_le A (1048576 * 2 ^ e)) as Hle.
    assert (A / (1048576 * 2 ^ e) < 2 ^ 53); [|lia].
    apply Z.div_lt_upper_bound; [lia|].
    replace (1048576 * 2 ^ e * 2 ^ 53) with (2 ^ Z.succ l); [exact Hspec|].
    change 1048576 with (2 ^ 20). rewrite <- !Z.pow_add_r by lia.
    f_equal. unfold e. lia. }
  assert (Hov : (2 ^ 1024 <=? Py.round_half_even A (1048576 * 2 ^ e) * 2 ^ e) = false).
  { apply Z.leb_gt.
    apply Z.le_lt_trans with (2 ^ 53 * 2 ^ e).
    - apply Z.mul_le_mono_nonneg_r; lia.
    - rewrite <- Z.pow_add_r by lia. apply Z.pow_lt_mono_r; unfold e; lia. }
  rewrite Hov. eexists; reflexivity.
Qed.

Lemma true_divide_MiB_exact (m : Z) :
  0 <= m < 2 ^ 53 ->
  (x <- Py.true_divide m (1024 * 1024) ;; Return (Py.int x))%py = Return (m / 1048576).
Proof.
  intros [Hlo Hhi].
  change (1024 * 1024) with 1048576.
  unfold Py.true_divide.
  change (1048576 =? 0) with false. cbv iota.
  destruct (m =? 0) eqn:Hm0.
  - apply Z.eqb_eq in Hm0. subst m. reflexivity.
  - apply Z.eqb_neq in Hm0.
    assert (Hpos : 0 < m) by lia.
    rewrite (Z.abs_eq m) by lia.
    change (Z.abs 1048576) with 1048576.
    change (Z.log2 1048576) with 20.
    rewrite (MiB_exponent _ Hpos).
    set (l := Z.log2 m).
    assert (Hl0 : 0 <= l) by apply Z.log2_nonneg.
    assert (Hl : l < 53) by (apply Z.log2_lt_pow2; lia).
    rewrite (Z.max_l (l - 20 - 52) (-1074)) by lia.
    rewrite (Z.max_r 0 (- (l - 20 - 52))) by lia.
    rewrite (Z.max_l 0 (l - 20 - 52)) by lia.
    change (2 ^ 0) with 1. rewrite Z.mul_1_r.
    replace (m * 2 ^ (- (l - 20 - 52))) with (m * 2 ^ (52 - l) * 1048576).
    2:{ replace (- (l - 20 - 52)) with ((52 - l) + 20) by lia.
        rewrite Z.pow_add_r by lia. change (2 ^ 20) with 1048576. ring. }
    rewrite round_half_even_exact by lia.
    replace (0 <=? l - 20 - 52) with false by (symmetry; apply Z.leb_gt; lia).
    cbv [andb bind Py.int Py.mant Py.expo].
    replace (0 <=? l - 20 - 52) with false by (symmetry; apply Z.leb_gt; lia).
    f_equal.
    rewrite Z.sgn_pos by lia. change (Z.sgn 1048576) with 1.
    rewrite !Z.mul_1_l.
    assert (Hp : 0 < 2 ^ (52 - l)) by (apply Z.pow_pos_nonneg; lia).
    rewrite Z.quot_div_nonneg.
    + replace (- (l - 20 - 52)) with (20 + (52 - l)) by lia.
      rewrite Z.pow_add_r by lia. change (2 ^ 20) with 1048576.
      apply Z.div_mul_cancel_r; lia.
    + apply Z.mul_nonneg_nonneg; lia.
    + apply Z.pow_pos_nonneg; lia.
Qed.

(** The primitives on a few inputs, with the values Python gives. *)
Example split_status_line :
  Py.split "% SZS status Theorem for foo" = ["%"; "SZS"; "status"; "Theorem"; "for"; "foo"]
  /\ Py.split "  two   words " = ["two"; "words"]
  /\ Py.split "" = [].
Proof. repeat split. Qed.

Example str_integers :
  Py.str 2048 = "2048" /\ Py.str 0 = "0" /\ Py.str (-5) = "-5".
Proof. repeat split. Qed.

Example true_divide_rounds :
  bind (Py.true_divide 7 2) (fun x => Return (Py.int x)) = Return 3
  /\ bind (Py.true_divide (-7) 2) (fun x => Return (Py.int x)) = Return (-3)
  /\ bind (Py.true_divide (2 ^ 53 + 1) 1) (fun x => Return (Py.int x)) = Return (2 ^ 53)
  /\ bind (Py.true_divide (2 ^ 53 + 3) 1) (fun x => Return (Py.int x)) = Return (2 ^ 53 + 4)
  /\ bind (Py.true_divide (10 ^ 30) 7) (fun x => Return (Py.int x))
     = Return 142857142857142852444009529344
  /\ Py.true_divide 1 3 = Return {| Py.mant := 6004799503160661; Py.expo := -54 |}
  /\ Py.true_divide 1 0 = Raise (ZeroDivisionError "division by zero")
  /\ Py.true_divide (2 ^ 1044) (1024 * 1024)
     = Raise (OverflowError "integer division result too large for a float").
Proof. repeat split; vm_compute; reflexivity. Qed.

(* ================================================================= *)
(** * The command-line builder, block by block *)

(** The tokens of the first block do not change what the second block sees
    of the user's memory options. *)
Lemma has_memory_option_time_tokens (options : list string) (rlimits : ResourceLimits) :
  has_memory_option (options ++ time_tokens options rlimits) = has_memory_option options.
Proof.
  unfold time_tokens. destruct (has_time_option options).
  - now rewrite app_nil_r.
  - unfold has_memory_option. rewrite !contains_app.
    assert (Hv : time_value rlimits <> "-m" /\ time_value rlimits <> "--memory_limit").
    { unfold time_value. destruct (walltime rlimits) as [w|].
      - destruct (str_s_not_option w) as (_ & _ & H1 & H2). now split.
      - split; discriminate. }
    destruct Hv as [Hm Hml].
    rewrite (contains_pair "-m" "-t" (time_value rlimits)) by (discriminate || congruence).
    rewrite (contains_pair "--memory_limit" "-t" (time_value rlimits))
      by (discriminate || congruence).
    now rewrite !orb_false_r.
Qed.

(** With at most one input file, [cmdline] is its two blocks one after the
    other; a failure of the second block leaves the tokens of the first in
    the caller's list. *)
Lemma cmdline_blocks (executable : string) (options : list string)
    (task : Task) (rlimits : ResourceLimits) :
  (List.length (input_files task) <= 1)%nat ->
  Tool.cmdline executable options task rlimits =
    match memory_tokens options rlimits with
    | Return mem =>
        (Return ([executable] ++ (options ++ time_tokens options rlimits ++ mem)
                 ++ input_files task)%list,
         (options ++ time_tokens options rlimits ++ mem)%list)
    | Raise e => (Raise e, (options ++ time_tokens options rlimits)%list)
    end.
Proof.
  intros Hlen. apply Nat.leb_le in Hlen.
  unfold Tool.cmdline, cbind, assert_, options_now. rewrite Hlen.
  unfold cret at 1. cbv beta iota.
  set (o1 := (options ++ time_tokens options rlimits)%list).
  assert (H1 : when (negb (Py.contains "-t" options) && negb (Py.contains "--time_limit" options))
                 match walltime rlimits with
                 | Some w => extend ["-t"; (Py.str w ++ "s")%string]
                 | None => extend ["-t"; "0"]
                 end options = (Return tt, o1)).
  { unfold o1, time_tokens, has_time_option, time_value, when, extend, cret.
    destruct (Py.contains "-t" options), (Py.contains "--time_limit" options);
      simpl; rewrite ?app_nil_r; try reflexivity.
    destruct (walltime rlimits); reflexivity. }
  rewrite H1. clear H1.
  assert (Hmem : negb (Py.contains "-m" o1) && negb (Py.contains "--memory_limit" o1)
                 = negb (has_memory_option options)).
  { rewrite <- (has_memory_option_time_tokens options rlimits). fold o1.
    unfold has_memory_option. now rewrite negb_orb. }
  rewrite Hmem. clear Hmem.
  unfold memory_tokens, when, lift, extend, cret, cbind.
  destruct (has_memory_option options); [simpl; now rewrite app_nil_r|].
  destruct (memory rlimits) as [m|]; [|simpl; now rewrite app_nil_r].
  unfold bind.
  destruct (Py.true_divide m (1024 * 1024)) as [x|e]; simpl.
  - unfold o1. now rewrite <- !app_assoc.
  - reflexivity.
Qed.

Lemma true_divide_raise (a b : Z) (e : PyExn) :
  Py.true_divide a b = Raise e ->
  (b = 0 /\ e = ZeroDivisionError "division by zero") \/
  e = OverflowError "integer division result too large for a float".
Proof.
  unfold Py.true_divide.
  destruct (b =? 0) eqn:Hb.
  - intros H. injection H as <-. left. apply Z.eqb_eq in Hb. now split.
  - destruct (a =? 0); [discriminate|].
    match goal with |- context [if ?c then Raise _ else _] => destruct c end;
      [|discriminate].
    intros H. injection H as <-. now right.
Qed.

Lemma memory_tokens_shape (options : list string) (rlimits : ResourceLimits)
    (mem : list string) :
  memory_tokens options rlimits = Return mem ->
  mem = [] \/
  ((exists n, mem = ["-m"; Py.str n]) /\
   has_memory_option options = false /\ memory rlimits <> None).
Proof.
  unfold memory_tokens.
  destruct (has_memory_option options); [intros H; injection H as <-; now left|].
  destruct (memory rlimits) as [m|]; [|intros H; injection H as <-; now left].
  unfold bind. destruct (Py.true_divide m (1024 * 1024)) as [x|e]; [|discriminate].
  intros H. injection H as <-. right. repeat split; [now exists (Py.int x) | discriminate].
Qed.

Lemma memory_tokens_raise (options : list string) (rlimits : ResourceLimits) (e : PyExn) :
  memory_tokens options rlimits = Raise e ->
  e = OverflowError "integer division result too large for a float".
Proof.
  unfold memory_tokens.
  destruct (has_memory_option options); [discriminate|].
  destruct (memory rlimits) as [m|]; [|discriminate].
  unfold bind. destruct (Py.true_divide m (1024 * 1024)) as [x|e'] eqn:E; [discriminate|].
  intros H. injection H as <-.
  apply true_divide_raise in E. destruct E as [[E _]|E]; [discriminate E | exact E].
Qed.

Lemma memory_tokens_returns (options : list string) (rlimits : ResourceLimits) :
  has_memory_option options = true \/ memory rlimits = None \/
  (exists m, memory rlimits = Some m /\ Z.abs m < 2 ^ 1043) ->
  exists mem, memory_tokens options rlimits = Return mem.
Proof.
  unfold memory_tokens. intros [H|[H|[m [H Hm]]]].
  - rewrite H. now exists [].
  - destruct (has_memory_option options); rewrite ?H; now exists [].
  - destruct (has_memory_option options); [now exists []|].
    rewrite H. destruct (true_divide_MiB_returns m Hm) as [x ->].
    simpl. now eexists.
Qed.

(** Below [2 ^ 53] bytes the second block prints the whole mebibytes of the
    ceiling. *)
Lemma memory_tokens_whole_mebibytes (options : list string) (rlimits : ResourceLimits)
    (m : Z) :
  has_memory_option options = false -> memory rlimits = Some m -> 0 <= m < 2 ^ 53 ->
  memory_tokens options rlimits = Return ["-m"; Py.str (m / 1048576)].
Proof.
  intros Hopt Hmem Hm. unfold memory_tokens. rewrite Hopt, Hmem.
  pose proof (true_divide_MiB_exact m Hm) as H. unfold bind in *.
  destruct (Py.true_divide m (1024 * 1024)) as [x|e]; [|discriminate].
  injection H as ->. reflexivity.
Qed.

Lemma cmdline_memory_whole_mebibytes (executable : string) (options : list string)
    (task : Task) (rlimits : ResourceLimits) (m : Z) :
  (List.length (input_files task) <= 1)%nat ->
  has_memory_option options = false -> memory rlimits = Some m -> 0 <= m < 2 ^ 53 ->
  snd (Tool.cmdline executable options task rlimits)
  = (options ++ time_tokens options rlimits ++ ["-m"; Py.str (m / 1048576)])%list.
Proof.
  intros Hlen Hopt Hmem Hm. rewrite cmdline_blocks by assumption.
  now rewrite (memory_tokens_whole_mebibytes options rlimits m).
Qed.

Lemma cmdline_two_gibibytes :
  snd (Tool.cmdline "vampire" [] {| input_files := ["problem.p"] |}
         {| walltime := None; memory := Some (2 * 1024 ^ 3) |})
  = ["-t"; "0"; "-m"; "2048"].
Proof. reflexivity. Qed.

(* ================================================================= *)
(** * Properties of the command-line builder *)

(** C2 (evaluation of the code where it leaves the claim).  For a ceiling of
    [2 ^ 73 - 1] bytes and options without [-m] and [--memory_limit], [cmdline]
    appends [-m 9007199254740992], while the whole mebibytes of the ceiling,
    its floor division by 1048576, are [9007199254740991]: the quotient is
    taken in binary64 and rounded up to [2 ^ 53] before it is truncated. *)
Theorem cmdline_memory_beyond_binary64_precision :
  has_memory_option [] = false /\
  Tool.cmdline "vampire" [] {| input_files := [] |}
    {| walltime := None; memory := Some (2 ^ 73 - 1) |}
  = (Return ["vampire"; "-t"; "0"; "-m"; "9007199254740992"],
     ["-t"; "0"; "-m"; "9007199254740992"]) /\
  Py.str ((2 ^ 73 - 1) / 1048576) = "9007199254740991".
Proof. repeat split; vm_compute; reflexivity. Qed.

(** C3 (counterexample).  With options [-t 10] and a memory ceiling of 2 GiB
    the builder appends [-m 2048]: naming a time limit does not keep the
    memory tokens out. *)
Lemma cmdline_memory_token_after_time_option :
  ~ no_limit_token_after_time_option.
Proof.
  intros H.
  destruct (H "vampire" ["-t"; "10"] {| input_files := ["problem.p"] |}
              {| walltime := Some 30; memory := Some (2 * 1024 ^ 3) |}
              ["-m"; "2048"] eq_refl eq_refl) as [_ Hm].
  apply Hm. now left.
Qed.

(** C3 (amended).  When the options already contain [-t] or [--time_limit],
    [cmdline] appends no [-t] and no [--time_limit] token, whatever the
    limits: what it appends is empty, or it is [-m] with a number, and that
    only if the options contain neither [-m] nor [--memory_limit] and a
    memory ceiling is requested. *)
Theorem cmdline_keeps_time_option (executable : string) (options : list string)
    (task : Task) (rlimits : ResourceLimits) :
  has_time_option options = true ->
  exists appended,
    snd (Tool.cmdline executable options task rlimits) = (options ++ appended)%list /\
    ~ In "-t" appended /\ ~ In "--time_limit" appended /\
    (appended = [] \/
     ((exists n, appended = ["-m"; Py.str n]) /\
      has_memory_option options = false /\ memory rlimits <> None)) /\
    (has_memory_option options = true -> appended = []).
Proof.
  intros Htime.
  destruct (Nat.leb (List.length (input_files task)) 1) eqn:Hlen.
  - apply Nat.leb_le in Hlen. rewrite cmdline_blocks by assumption.
    unfold time_tokens. rewrite Htime. simpl app.
    destruct (memory_tokens options rlimits) as [mem|e] eqn:Hmem.
    + exists mem. simpl snd. split; [reflexivity|].
      destruct (memory_tokens_shape _ _ _ Hmem) as [->|([n ->] & Hopt & Hreq)].
      * repeat split; try (intros []); now left.
      * destruct (str_not_option n) as (Ht & Htl & _).
        repeat split.
        -- intros [H|[H|[]]]; [discriminate H | now apply Ht].
        -- intros [H|[H|[]]]; [discriminate H | now apply Htl].
        -- right. repeat split; [now exists n | assumption..].
        -- intros H. rewrite H in Hopt. discriminate.
    + exists []. simpl snd. repeat split; try (intros []); now left.
  - exists []. unfold Tool.cmdline, cbind, assert_, lift. rewrite Hlen. simpl.
    rewrite app_nil_r. repeat split; try (intros []); now left.
Qed.

Lemma cmdline_keeps_time_option_witness :
  has_time_option ["--time_limit"; "10"] = true /\
  exists appended,
    snd (Tool.cmdline "vampire" ["--time_limit"; "10"] {| input_files := ["problem.p"] |}
           {| walltime := Some 30; memory := Some (2 * 1024 ^ 3) |})
    = (["--time_limit"; "10"] ++ appended)%list /\
    ~ In "-t" appended /\ ~ In "--time_limit" appended /\
    (appended = [] \/
     ((exists n, appended = ["-m"; Py.str n]) /\
      has_memory_option ["--time_limit"; "10"] = false /\
      Some (2 * 1024 ^ 3) <> None)) /\
    (has_memory_option ["--time_limit"; "10"] = true -> appended = []).
Proof.
  split; [reflexivity|].
  apply (cmdline_keeps_time_option "vampire" ["--time_limit"; "10"]
           {| input_files := ["problem.p"] |}
           {| walltime := Some 30; memory := Some (2 * 1024 ^ 3) |}).
  reflexivity.
Defined.

(** C6.  For a task with at most one input file and options that contain
    neither [-t] nor [--time_limit], [cmdline] appends exactly the two tokens
    [-t], [0] when no wall-clock limit is requested and exactly [-t],
    [<seconds>s] when one is; the only tokens that can follow them are those
    of the memory limit, and there are none when the options name a memory
    limit or no ceiling is requested. *)
Theorem cmdline_time_limit_tokens (executable : string) (options : list string)
    (task : Task) (rlimits : ResourceLimits) :
  (List.length (input_files task) <= 1)%nat ->
  Py.contains "-t" options = false ->
  Py.contains "--time_limit" options = false ->
  exists memory_part,
    match walltime rlimits with
    | None =>
        snd (Tool.cmdline executable options task rlimits)
        = (options ++ ["-t"; "0"] ++ memory_part)%list
    | Some w =>
        snd (Tool.cmdline executable options task rlimits)
        = (options ++ ["-t"; (Py.str w ++ "s")%string] ++ memory_part)%list
    end /\
    (memory_part = [] \/ exists n, memory_part = ["-m"; Py.str n]) /\
    (has_memory_option options = true \/ memory rlimits = None -> memory_part = []) /\
    (forall tokens,
        fst (Tool.cmdline executable options task rlimits) = Return tokens ->
        tokens = ([executable] ++ snd (Tool.cmdline executable options task rlimits)
                  ++ input_files task)%list).
Proof.
  intros Hlen Ht Htl. rewrite cmdline_blocks by assumption.
  assert (Htime : time_tokens options rlimits = ["-t"; time_value rlimits]).
  { unfold time_tokens, has_time_option. now rewrite Ht, Htl. }
  rewrite Htime.
  assert (Hnone : has_memory_option options = true \/ memory rlimits = None ->
                  memory_tokens options rlimits = Return []).
  { unfold memory_tokens. intros [H|H].
    - now rewrite H.
    - rewrite H. now destruct (has_memory_option options). }
  destruct (memory_tokens options rlimits) as [mem|e] eqn:Hmem.
  - exists mem. repeat split.
    + unfold time_value. now destruct (walltime rlimits).
    + destruct (memory_tokens_shape _ _ _ Hmem) as [->|([n ->] & _)];
        [now left | right; now exists n].
    + intros H. specialize (Hnone H). now injection Hnone as ->.
    + simpl. intros tokens H. now injection H as <-.
  - exists []. repeat split.
    + unfold time_value. now destruct (walltime rlimits).
    + now left.
    + simpl. intros tokens H. discriminate.
Qed.

Lemma cmdline_time_limit_tokens_witness :
  (exists memory_part,
      snd (Tool.cmdline "vampire" ["--mode"; "casc"] {| input_files := ["problem.p"] |}
             {| walltime := Some 30; memory := None |})
      = (["--mode"; "casc"] ++ ["-t"; "30s"] ++ memory_part)%list /\ memory_part = []) /\
  (exists memory_part,
      snd (Tool.cmdline "vampire" ["--mode"; "casc"] {| input_files := ["problem.p"] |}
             {| walltime := None; memory := None |})
      = (["--mode"; "casc"] ++ ["-t"; "0"] ++ memory_part)%list /\ memory_part = []).
Proof.
  split.
  - destruct (cmdline_time_limit_tokens "vampire" ["--mode"; "casc"]
                {| input_files := ["problem.p"] |}
                {| walltime := Some 30; memory := None |}
                (le_n 1) eq_refl eq_refl) as (mp & H1 & _ & H3 & _).
    exists mp. split; [exact H1 | apply H3; right; reflexivity].
  - destruct (cmdline_time_limit_tokens "vampire" ["--mode"; "casc"]
                {| input_files := ["problem.p"] |}
                {| walltime := None; memory := None |}
                (le_n 1) eq_refl eq_refl) as (mp & H1 & _ & H3 & _).
    exists mp. split; [exact H1 | apply H3; right; reflexivity].
Defined.

(** C7.  With more than one input file [cmdline] fails its assertion before
    anything is built: no token list is returned and the caller's options
    are as they were.  With no or one input file the assertion does not
    fail. *)
Theorem cmdline_input_files_precondition (executable : string) (options : list string)
    (task : Task) (rlimits : ResourceLimits) :
  ((1 < List.length (input_files task))%nat ->
   Tool.cmdline executable options task rlimits
   = (Raise (AssertionError "only one input file supported"), options)) /\
  ((List.length (input_files task) <= 1)%nat ->
   forall msg,
     fst (Tool.cmdline executable options task rlimits) <> Raise (AssertionError msg)).
Proof.
  split.
  - intros Hlen. unfold Tool.cmdline, cbind, assert_, lift.
    replace (Nat.leb (List.length (input_files task)) 1) with false; [reflexivity|].
    symmetry. apply Nat.leb_gt. exact Hlen.
  - intros Hlen msg. rewrite cmdline_blocks by assumption.
    destruct (memory_tokens options rlimits) as [mem|e] eqn:Hmem; simpl.
    + discriminate.
    + apply memory_tokens_raise in Hmem. subst e. discriminate.
Qed.

Lemma cmdline_input_files_precondition_witness :
  Tool.cmdline "vampire" ["--mode"; "casc"] {| input_files := ["a.p"; "b.p"] |}
    {| walltime := Some 30; memory := Some (2 * 1024 ^ 3) |}
  = (Raise (AssertionError "only one input file supported"), ["--mode"; "casc"]) /\
  (forall msg,
      fst (Tool.cmdline "vampire" ["--mode"; "casc"] {| input_files := ["a.p"] |}
             {| walltime := Some 30; memory := Some (2 * 1024 ^ 3) |})
      <> Raise (AssertionError msg)) /\
  (forall msg,
      fst (Tool.cmdline "vampire" ["--mode"; "casc"] {| input_files := [] |}
             {| walltime := Some 30; memory := Some (2 * 1024 ^ 3) |})
      <> Raise (AssertionError msg)).
Proof.
  split; [|split].
  - apply (proj1 (cmdline_input_files_precondition "vampire" ["--mode"; "casc"]
                    {| input_files := ["a.p"; "b.p"] |}
                    {| walltime := Some 30; memory := Some (2 * 1024 ^ 3) |})).
    apply le_n.
  - apply (proj2 (cmdline_input_files_precondition "vampire" ["--mode"; "casc"]
                    {| input_files := ["a.p"] |}
                    {| walltime := Some 30; memory := Some (2 * 1024 ^ 3) |})).
    apply le_n.
  - apply (proj2 (cmdline_input_files_precondition "vampire" ["--mode"; "casc"]
                    {| input_files := [] |}
                    {| walltime := Some 30; memory := Some (2 * 1024 ^ 3) |})).
    apply le_S, le_n.
Defined.

(** C8.  For a task with at most one input file, the token list [cmdline]
    returns is the executable, then the user options as given, then the limit
    tokens appended to them (a time part that is empty or [-t] with its value,
    then a memory part that is empty or [-m] with a number), then the input
    files.  A limit the user options already name gets no part, so no option
    of the caller is repeated.  The call returns whenever the second block
    does not divide, and for every ceiling below [2 ^ 1043] bytes in absolute
    value; the caller's option list ends as the options followed by the
    appended parts. *)
Theorem cmdline_token_sequence (executable : string) (options : list string)
    (task : Task) (rlimits : ResourceLimits) :
  (List.length (input_files task) <= 1)%nat ->
  exists time_part memory_part,
    snd (Tool.cmdline executable options task rlimits)
    = (options ++ time_part ++ memory_part)%list /\
    (forall tokens,
        fst (Tool.cmdline executable options task rlimits) = Return tokens ->
        tokens = ([executable] ++ options ++ (time_part ++ memory_part)
                  ++ input_files task)%list) /\
    (time_part = [] \/ time_part = ["-t"; time_value rlimits]) /\
    (memory_part = [] \/ exists n, memory_part = ["-m"; Py.str n]) /\
    (has_time_option options = true -> time_part = []) /\
    (has_memory_option options = true -> memory_part = []) /\
    (has_memory_option options = true \/ memory rlimits = None \/
     (exists m, memory rlimits = Some m /\ Z.abs m < 2 ^ 1043) ->
     exists tokens, fst (Tool.cmdline executable options task rlimits) = Return tokens).
Proof.
  intros Hlen. rewrite cmdline_blocks by assumption.
  exists (time_tokens options rlimits).
  assert (Htime : (time_tokens options rlimits = [] \/
                   time_tokens options rlimits = ["-t"; time_value rlimits]) /\
                  (has_time_option options = true -> time_tokens options rlimits = [])).
  { unfold time_tokens. destruct (has_time_option options); split; auto. discriminate. }
  destruct Htime as [Hshape Hnone].
  destruct (memory_tokens options rlimits) as [mem|e] eqn:Hmem.
  - exists mem. simpl fst. simpl snd. repeat split; try assumption.
    + intros tokens H. injection H as <-. now rewrite <- !app_assoc.
    + destruct (memory_tokens_shape _ _ _ Hmem) as [->|([n ->] & _)];
        [now left | right; now exists n].
    + intros H. destruct (memory_tokens_shape _ _ _ Hmem) as [->|(_ & Hopt & _)];
        [reflexivity | rewrite H in Hopt; discriminate].
    + intros _. now eexists.
  - exists []. simpl fst. simpl snd. rewrite app_nil_r. repeat split; try assumption.
    + intros tokens H. discriminate.
    + now left.
    + intros H. destruct (memory_tokens_returns options rlimits H) as [mem Hret].
      rewrite Hret in Hmem. discriminate.
Qed.

Lemma cmdline_token_sequence_witness :
  (List.length ["problem.p"] <= 1)%nat /\
  exists time_part memory_part,
    snd (Tool.cmdline "vampire" ["--mode"; "casc"; "-m"; "4096"]
           {| input_files := ["problem.p"] |}
           {| walltime := Some 30; memory := Some (2 * 1024 ^ 3) |})
    = (["--mode"; "casc"; "-m"; "4096"] ++ time_part ++ memory_part)%list /\
    (forall tokens,
        fst (Tool.cmdline "vampire" ["--mode"; "casc"; "-m"; "4096"]
               {| input_files := ["problem.p"] |}
               {| walltime := Some 30; memory := Some (2 * 1024 ^ 3) |})
        = Return tokens ->
        tokens = (["vampire"] ++ ["--mode"; "casc"; "-m"; "4096"]
                  ++ (time_part ++ memory_part) ++ ["problem.p"])%list) /\
    (time_part = [] \/ time_part = ["-t"; "30s"]) /\
    (memory_part = [] \/ exists n, memory_part = ["-m"; Py.str n]) /\
    (has_time_option ["--mode"; "casc"; "-m"; "4096"] = true -> time_part = []) /\
    (has_memory_option ["--mode"; "casc"; "-m"; "4096"] = true -> memory_part = []) /\
    (has_memory_option ["--mode"; "casc"; "-m"; "4096"] = true \/
     Some (2 * 1024 ^ 3) = None \/
     (exists m, Some (2 * 1024 ^ 3) = Some m /\ Z.abs m < 2 ^ 1043) ->
     exists tokens,
       fst (Tool.cmdline "vampire" ["--mode"; "casc"; "-m"; "4096"]
              {| input_files := ["problem.p"] |}
              {| walltime := Some 30; memory := Some (2 * 1024 ^ 3) |})
       = Return tokens).
Proof.
  split; [apply le_n|].
  apply (cmdline_token_sequence "vampire" ["--mode"; "casc"; "-m"; "4096"]
           {| input_files := ["problem.p"] |}
           {| walltime := Some 30; memory := Some (2 * 1024 ^ 3) |}).
  apply le_n.
Defined.

(* ================================================================= *)
(** * The status extractor *)

Lemma count_status_lines_cons (line : string) (rest : list string) :
  count_status_lines (line :: rest)
  = if is_status_line line then S (count_status_lines rest) else count_status_lines rest.
Proof.
  unfold count_status_lines. cbn [filter].
  now destruct (is_status_line line).
Qed.

(** One turn of the loop. *)
Lemma get_szs_status_loop_cons (status : option string) (line : string)
    (rest : list string) :
  Tool.get_szs_status_loop status (line :: rest)
  = if is_status_line line then
      match status with
      | None =>
          (status' <- (if well_formed line
                       then (w <- Py.index (Py.split line) 3 ;; Return (Some w))
                       else Return None) ;;
           Tool.get_szs_status_loop status' rest)%py
      | Some _ => Return None
      end
    else Tool.get_szs_status_loop status rest.
Proof. reflexivity. Qed.

(** The first status line sets [status] to its fourth word, if it has one. *)
Lemma get_szs_status_loop_first_line (line : string) (rest : list string) :
  is_status_line line = true ->
  Tool.get_szs_status_loop None (line :: rest)
  = Tool.get_szs_status_loop (nth_error (Py.split line) 3) rest.
Proof.
  intros Hline. rewrite get_szs_status_loop_cons, Hline.
  unfold well_formed.
  destruct (Nat.leb 4 (List.length (Py.split line))) eqn:Hlen.
  - apply Nat.leb_le in Hlen.
    destruct (index_in_range (Py.split line) 3) as [w [-> ->]]; [lia|]. reflexivity.
  - apply Nat.leb_gt in Hlen.
    replace (nth_error (Py.split line) 3) with (@None string); [reflexivity|].
    symmetry. apply nth_error_None. lia.
Qed.

(** The loop never raises: the index 3 is read only from four words or more. *)
Lemma get_szs_status_loop_returns (output : list string) (status : option string) :
  exists r, Tool.get_szs_status_loop status output = Return r.
Proof.
  revert status. induction output as [|line rest IH]; intros status.
  - now exists status.
  - destruct (is_status_line line) eqn:Hline.
    + destruct status as [s|].
      * rewrite get_szs_status_loop_cons, Hline. now exists None.
      * rewrite get_szs_status_loop_first_line by assumption. apply IH.
    + rewrite get_szs_status_loop_cons, Hline. apply IH.
Qed.

(** Without status lines the loop leaves [status] as it is. *)
Lemma get_szs_status_loop_no_status_line (output : list string) (status : option string) :
  count_status_lines output = 0%nat ->
  Tool.get_szs_status_loop status output = Return status.
Proof.
  induction output as [|line rest IH]; [reflexivity|].
  rewrite count_status_lines_cons, get_szs_status_loop_cons.
  destruct (is_status_line line); [discriminate | exact IH].
Qed.

(** Once a status is held, any further status line makes the result absent. *)
Lemma get_szs_status_loop_second_line (output : list string) (s : string) :
  (1 <= count_status_lines output)%nat ->
  Tool.get_szs_status_loop (Some s) output = Return None.
Proof.
  induction output as [|line rest IH]; [unfold count_status_lines; simpl; lia|].
  rewrite count_status_lines_cons, get_szs_status_loop_cons.
  destruct (is_status_line line); [reflexivity | exact IH].
Qed.

(** Lines before the first status line are passed over. *)
Lemma get_szs_status_loop_skip (pre rest : list string) (status : option string) :
  count_status_lines pre = 0%nat ->
  Tool.get_szs_status_loop status (pre ++ rest) = Tool.get_szs_status_loop status rest.
Proof.
  induction pre as [|line pre IH]; [reflexivity|].
  rewrite count_status_lines_cons, <- app_comm_cons, get_szs_status_loop_cons.
  destruct (is_status_line line); [discriminate | exact IH].
Qed.

Lemma well_formed_fourth_word (line : string) :
  well_formed line = true ->
  exists w, nth_error (Py.split line) 3 = Some w /\ w <> EmptyString.
Proof.
  unfold well_formed. intros Hlen. apply Nat.leb_le in Hlen.
  destruct (nth_error (Py.split line) 3) as [w|] eqn:E.
  - exists w. split; [reflexivity|]. apply (split_nonempty line).
    eapply nth_error_In; eassumption.
  - apply nth_error_None in E. lia.
Qed.

(** A single status line gives its fourth word, or nothing if it is short. *)
Lemma get_szs_status_unique_line (pre post : list string) (line : string) :
  count_status_lines pre = 0%nat -> is_status_line line = true ->
  count_status_lines post = 0%nat ->
  Tool.get_szs_status (pre ++ line :: post) = Return (nth_error (Py.split line) 3).
Proof.
  intros Hpre Hline Hpost. unfold Tool.get_szs_status.
  rewrite get_szs_status_loop_skip by assumption.
  rewrite get_szs_status_loop_first_line by assumption.
  now apply get_szs_status_loop_no_status_line.
Qed.

(** A well-formed first status line followed by another status line gives
    no status. *)
Lemma get_szs_status_after_well_formed (pre post : list string) (line : string) :
  count_status_lines pre = 0%nat -> is_status_line line = true ->
  well_formed line = true -> (1 <= count_status_lines post)%nat ->
  Tool.get_szs_status (pre ++ line :: post) = Return None.
Proof.
  intros Hpre Hline Hwf Hpost. unfold Tool.get_szs_status.
  rewrite get_szs_status_loop_skip by assumption.
  rewrite get_szs_status_loop_first_line by assumption.
  destruct (well_formed_fourth_word line Hwf) as [w [-> _]].
  now apply get_szs_status_loop_second_line.
Qed.

(** A status line without fourth word is passed over like any other line. *)
Lemma get_szs_status_short_line (pre post : list string) (line : string) :
  count_status_lines pre = 0%nat -> is_status_line line = true ->
  well_formed line = false ->
  Tool.get_szs_status (pre ++ line :: post) = Tool.get_szs_status post.
Proof.
  intros Hpre Hline Hwf. unfold Tool.get_szs_status.
  rewrite get_szs_status_loop_skip by assumption.
  rewrite get_szs_status_loop_first_line by assumption.
  replace (nth_error (Py.split line) 3) with (@None string); [reflexivity|].
  symmetry. apply nth_error_None. unfold well_formed in Hwf.
  apply Nat.leb_gt in Hwf. lia.
Qed.

(** An extracted status has a character. *)
Lemma get_szs_status_loop_nonempty (output : list string) (status : option string)
    (s : string) :
  status <> Some EmptyString ->
  Tool.get_szs_status_loop status output = Return (Some s) -> s <> EmptyString.
Proof.
  revert status. induction output as [|line rest IH]; intros status Hst.
  - simpl. intros H. injection H as ->. congruence.
  - destruct (is_status_line line) eqn:Hline.
    + destruct status as [t|].
      * rewrite get_szs_status_loop_cons, Hline. discriminate.
      * rewrite get_szs_status_loop_first_line by assumption. apply IH.
        destruct (nth_error (Py.split line) 3) as [w|] eqn:E; [|discriminate].
        intros H. injection H as ->.
        apply (split_nonempty line EmptyString); [|reflexivity].
        eapply nth_error_In; eassumption.
    + rewrite get_szs_status_loop_cons, Hline. now apply IH.
Qed.

Lemma get_szs_status_nonempty (output : RunOutput) (s : string) :
  Tool.get_szs_status output = Return (Some s) -> s <> EmptyString.
Proof. apply get_szs_status_loop_nonempty. discriminate. Qed.

Lemma get_szs_status_returns (output : RunOutput) :
  exists r, Tool.get_szs_status output = Return r.
Proof. apply get_szs_status_loop_returns. Qed.

(** C1 (evaluation of the code where it leaves the claim).  The output below
    has two lines that start with the status prefix, and [get_szs_status]
    returns the status of the second: the first has no fourth word and leaves
    [status] at [None], which is also how the loop tells that no status line
    was seen yet.  In the other order the result is absent. *)
Theorem get_szs_status_short_first_line :
  count_status_lines ["% SZS status"; "% SZS status Theorem for foo"] = 2%nat /\
  Tool.get_szs_status ["% SZS status"; "% SZS status Theorem for foo"]
  = Return (Some "Theorem") /\
  Tool.get_szs_status ["% SZS status Theorem for foo"; "% SZS status"] = Return None.
Proof. repeat split. Qed.

(** C9 (counterexample).  The output [% SZS status] has exactly one status
    line, and the extractor returns the placeholder for it: the line has no
    fourth word, so no status is extracted. *)
Lemma get_value_from_output_short_status_line :
  ~ status_string_iff_unique_line.
Proof.
  intros H. destruct (H ["% SZS status"]) as [Hone _].
  destruct (Hone eq_refl) as [s [Hs _]]. discriminate Hs.
Qed.

(** C9 (amended).  For the identifier [szs-status] the extractor returns the
    status [get_szs_status] extracts when there is one and the placeholder
    [--] when there is none.  For an output with exactly one status line it
    returns the fourth word of that line, or the placeholder if the line has
    fewer than four words.  It returns the placeholder for an output without
    status line, and for an output with two or more status lines of which the
    first has a fourth word. *)
Theorem get_value_from_output_szs_status (output : RunOutput) :
  (forall s, Tool.get_szs_status output = Return (Some s) ->
             snd (Tool.get_value_from_output output "szs-status") = Return (Some s)) /\
  (Tool.get_szs_status output = Return None ->
   snd (Tool.get_value_from_output output "szs-status") = Return (Some "--")) /\
  (count_status_lines output = 0%nat ->
   snd (Tool.get_value_from_output output "szs-status") = Return (Some "--")) /\
  (forall pre line post,
      output = pre ++ line :: post ->
      count_status_lines pre = 0%nat -> is_status_line line = true ->
      count_status_lines post = 0%nat ->
      snd (Tool.get_value_from_output output "szs-status")
      = Return (Some match nth_error (Py.split line) 3 with
                     | Some w => w
                     | None => "--"
                     end)) /\
  (forall pre line post,
      output = pre ++ line :: post ->
      count_status_lines pre = 0%nat -> is_status_line line = true ->
      well_formed line = true -> (1 <= count_status_lines post)%nat ->
      snd (Tool.get_value_from_output output "szs-status") = Return (Some "--")).
Proof.
  assert (Hsome : forall s, Tool.get_szs_status output = Return (Some s) ->
            snd (Tool.get_value_from_output output "szs-status") = Return (Some s)).
  { intros s Hs. pose proof (get_szs_status_nonempty output s Hs) as Hne.
    unfold Tool.get_value_from_output. simpl. rewrite Hs. simpl.
    destruct s; [contradiction | reflexivity]. }
  assert (Hnone : Tool.get_szs_status output = Return None ->
            snd (Tool.get_value_from_output output "szs-status") = Return (Some "--")).
  { intros Hs. unfold Tool.get_value_from_output. simpl. now rewrite Hs. }
  repeat split; try assumption.
  - intros H0. apply Hnone. unfold Tool.get_szs_status.
    now apply get_szs_status_loop_no_status_line.
  - intros pre line post -> Hpre Hline Hpost.
    pose proof (get_szs_status_unique_line pre post line Hpre Hline Hpost) as Hs.
    destruct (nth_error (Py.split line) 3) as [w|]; [now apply Hsome | now apply Hnone].
  - intros pre line post -> Hpre Hline Hwf Hpost.
    apply Hnone. now apply get_szs_status_after_well_formed.
Qed.

Lemma get_value_from_output_szs_status_witness :
  snd (Tool.get_value_from_output ["% SZS status Theorem for foo"] "szs-status")
  = Return (Some "Theorem") /\
  snd (Tool.get_value_from_output ["Vampire 4.5.1"] "szs-status") = Return (Some "--") /\
  snd (Tool.get_value_from_output
         ["Vampire 4.5.1"; "% SZS status Theorem for foo";
          "% SZS status Satisfiable for foo"] "szs-status")
  = Return (Some "--").
Proof.
  split; [|split].
  - apply (proj1 (get_value_from_output_szs_status ["% SZS status Theorem for foo"])).
    reflexivity.
  - apply (proj1 (proj2 (proj2 (get_value_from_output_szs_status ["Vampire 4.5.1"])))).
    reflexivity.
  - apply (proj2 (proj2 (proj2 (proj2
             (get_value_from_output_szs_status
                ["Vampire 4.5.1"; "% SZS status Theorem for foo";
                 "% SZS status Satisfiable for foo"]))))
             ["Vampire 4.5.1"] "% SZS status Theorem for foo"
             ["% SZS status Satisfiable for foo"]);
      first [reflexivity | apply le_n].
Defined.

(* ================================================================= *)
(** * The result classifier *)

Section Classifier.

Context {results : ResultConstants}.

Lemma reasons_are_true (reasons l : list string) :
  Tool.reasons_are reasons l = true <-> reasons = l.
Proof.
  unfold Tool.reasons_are.
  destruct (list_eq_dec string_dec reasons l); split; congruence.
Qed.

Lemma status_is_true (status : option string) (s : string) :
  Tool.status_is status s = true <-> status = Some s.
Proof.
  destruct status as [t|]; simpl.
  - rewrite String.eqb_eq. split; congruence.
  - split; discriminate.
Qed.

(** An exit status is true in a condition when it is an object whose value
    is not 0. *)
Lemma truthy_true (c : option ProcessExitCode) :
  truthy c = true <-> exists code, c = Some code /\ value code <> 0.
Proof.
  destruct c as [code|]; simpl.
  - rewrite negb_true_iff, Z.eqb_neq. split.
    + intros H. now exists code.
    + intros (code' & Hc & Hv). now injection Hc as ->.
  - split; [discriminate | intros (code & Hc & _); discriminate].
Qed.

Lemma truthy_false (c : option ProcessExitCode) :
  truthy c = false <-> c = None \/ exists code, c = Some code /\ value code = 0.
Proof.
  destruct c as [code|]; simpl.
  - rewrite negb_false_iff, Z.eqb_eq. split.
    + intros H. right. now exists code.
    + intros [H|(code' & Hc & Hv)]; [discriminate | now injection Hc as ->].
  - split; [now left | reflexivity].
Qed.

(** The classifier after the status is extracted, for an abnormal exit. *)
Lemma determine_result_abnormal (run : Run) (status : option string)
    (code : ProcessExitCode) :
  Tool.get_szs_status (output run) = Return status ->
  exit_code run = Some code -> value code <> 0 ->
  Tool.determine_result run
  = Return
      (if Tool.status_is status "Timeout" then "TIMEOUT"
       else if (value code =? 4) && first_line_startswith (output run) "Parsing error"
       then "Parsing error"
       else if value code =? 1 then
         let reasons := Tool.get_other_termination_reasons (output run) in
         if Tool.reasons_are reasons ["Time limit"] then "TIMEOUT"
         else if Tool.reasons_are reasons ["Refutation not found, incomplete strategy"]
         then "Incomplete"
         else if Tool.reasons_are reasons
                   ["Refutation not found, non-redundant clauses discarded"]
         then "Incomplete"
         else RESULT_ERROR
       else RESULT_ERROR).
Proof.
  intros Hs Hc Hv. unfold Tool.determine_result. rewrite Hs, Hc.
  rewrite startswith_text by (reflexivity || discriminate).
  cbn [bind truthy exit_value].
  apply Z.eqb_neq in Hv. rewrite Hv. cbn [negb].
  destruct (Tool.status_is status "Timeout"); [reflexivity|].
  destruct (value code =? 4);
    destruct (first_line_startswith (output run) "Parsing error");
    cbn [andb]; try reflexivity;
    repeat match goal with
           | |- context [if ?c then _ else _] => destruct c
           end; reflexivity.
Qed.

(** The classifier after the status is extracted, for a normal exit. *)
Lemma determine_result_normal (run : Run) (status : option string) :
  Tool.get_szs_status (output run) = Return status ->
  truthy (exit_code run) = false ->
  Tool.determine_result run
  = Return
      (if Tool.status_in status Tool.SZS_UNSAT then RESULT_TRUE_PROP
       else if Tool.status_in status Tool.SZS_SAT then RESULT_FALSE_PROP
       else RESULT_UNKNOWN).
Proof.
  intros Hs Hc. unfold Tool.determine_result. rewrite Hs, Hc.
  cbn [bind].
  repeat match goal with
         | |- context [if ?c then _ else _] => destruct c
         end; reflexivity.
Qed.

End Classifier.

Section ClassifierProperties.

Context {results : ResultConstants}.

(** C4.  For a run with an abnormal exit status, [determine_result] decides
    in this order, the first match winning: a status [Timeout] gives
    [TIMEOUT] whatever the exit code; else exit code 4 with a first output
    line starting with [Parsing error] gives [Parsing error]; else exit code
    1 with the termination reasons exactly [Time limit] gives [TIMEOUT], and
    with exactly one of the two [Refutation not found] reasons gives
    [Incomplete]; everything else gives the constant [RESULT_ERROR]. *)
Theorem determine_result_abnormal_exit (run : Run) :
  truthy (exit_code run) = true ->
  exists code status,
    exit_code run = Some code /\
    Tool.get_szs_status (output run) = Return status /\
    let reasons := Tool.get_other_termination_reasons (output run) in
    let parsing_error :=
      value code = 4 /\ first_line_startswith (output run) "Parsing error" = true in
    let unfinished :=
      value code = 1 /\
      (reasons = ["Time limit"] \/
       reasons = ["Refutation not found, incomplete strategy"] \/
       reasons = ["Refutation not found, non-redundant clauses discarded"]) in
    (status = Some "Timeout" -> Tool.determine_result run = Return "TIMEOUT") /\
    (status <> Some "Timeout" -> parsing_error ->
     Tool.determine_result run = Return "Parsing error") /\
    (status <> Some "Timeout" -> ~ parsing_error ->
     value code = 1 -> reasons = ["Time limit"] ->
     Tool.determine_result run = Return "TIMEOUT") /\
    (status <> Some "Timeout" -> ~ parsing_error ->
     value code = 1 ->
     reasons = ["Refutation not found, incomplete strategy"] \/
     reasons = ["Refutation not found, non-redundant clauses discarded"] ->
     Tool.determine_result run = Return "Incomplete") /\
    (status <> Some "Timeout" -> ~ parsing_error -> ~ unfinished ->
     Tool.determine_result run = Return RESULT_ERROR).
Proof.
  intros Hexit.
  apply truthy_true in Hexit as (code & Hcode & Hvalue).
  destruct (get_szs_status_returns (output run)) as [status Hstatus].
  exists code, status. split; [assumption|]. split; [assumption|].
  rewrite (determine_result_abnormal run status code Hstatus Hcode Hvalue).
  cbv zeta.
  assert (Hno : status <> Some "Timeout" -> Tool.status_is status "Timeout" = false).
  { intros H. destruct (Tool.status_is status "Timeout") eqn:E; [|reflexivity].
    apply status_is_true in E. contradiction. }
  assert (Hparse : ~ (value code = 4 /\
                      first_line_startswith (output run) "Parsing error" = true) ->
                   (value code =? 4)
                   && first_line_startswith (output run) "Parsing error" = false).
  { intros H. apply andb_false_iff.
    destruct (value code =? 4) eqn:E4; [|now left].
    right. apply Z.eqb_eq in E4.
    destruct (first_line_startswith (output run) "Parsing error"); [|reflexivity].
    exfalso. apply H. now split. }
  repeat split.
  - intros ->. reflexivity.
  - intros Hs [H4 Hfirst]. rewrite (Hno Hs), H4, Hfirst. reflexivity.
  - intros Hs Hp H1 Hr. rewrite (Hno Hs), (Hparse Hp), H1, Hr. reflexivity.
  - intros Hs Hp H1 Hr. rewrite (Hno Hs), (Hparse Hp), H1.
    destruct Hr as [-> | ->]; reflexivity.
  - intros Hs Hp Hu. rewrite (Hno Hs), (Hparse Hp).
    destruct (value code =? 1) eqn:E1; [|reflexivity].
    apply Z.eqb_eq in E1.
    repeat match goal with
           | |- context [if Tool.reasons_are ?r ?l then _ else _] =>
               let E := fresh "E" in
               destruct (Tool.reasons_are r l) eqn:E;
               [apply reasons_are_true in E; exfalso; apply Hu; split; auto|]
           end.
    reflexivity.
Qed.

(** C5.  For a run with a normal exit status, [determine_result] returns
    [RESULT_TRUE_PROP] for a status among ContradictoryAxioms, Theorem and
    Unsatisfiable, [RESULT_FALSE_PROP] for a status among
    CounterSatisfiable and Satisfiable, and [RESULT_UNKNOWN] in every other
    case, an absent status included. *)
Theorem determine_result_normal_exit (run : Run) :
  truthy (exit_code run) = false ->
  exists status,
    Tool.get_szs_status (output run) = Return status /\
    (forall s, status = Some s ->
               In s ["ContradictoryAxioms"; "Theorem"; "Unsatisfiable"] ->
               Tool.determine_result run = Return RESULT_TRUE_PROP) /\
    (forall s, status = Some s ->
               In s ["CounterSatisfiable"; "Satisfiable"] ->
               Tool.determine_result run = Return RESULT_FALSE_PROP) /\
    ((forall s, status = Some s ->
                ~ In s ["ContradictoryAxioms"; "Theorem"; "Unsatisfiable"] /\
                ~ In s ["CounterSatisfiable"; "Satisfiable"]) ->
     Tool.determine_result run = Return RESULT_UNKNOWN) /\
    (status = None -> Tool.determine_result run = Return RESULT_UNKNOWN).
Proof.
  intros Hexit.
  destruct (get_szs_status_returns (output run)) as [status Hstatus].
  exists status. split; [assumption|].
  rewrite (determine_result_normal run status Hstatus Hexit).
  assert (Hother : (forall s, status = Some s ->
                      ~ In s ["ContradictoryAxioms"; "Theorem"; "Unsatisfiable"] /\
                      ~ In s ["CounterSatisfiable"; "Satisfiable"]) ->
                   Return (if Tool.status_in status Tool.SZS_UNSAT then RESULT_TRUE_PROP
                           else if Tool.status_in status Tool.SZS_SAT then RESULT_FALSE_PROP
                           else RESULT_UNKNOWN) = Return RESULT_UNKNOWN).
  { intros H. destruct status as [s|]; [|reflexivity].
    destruct (H s eq_refl) as [Hu Hs]. unfold Tool.status_in.
    destruct (Py.contains s Tool.SZS_UNSAT) eqn:E1;
      [apply contains_In in E1; contradiction|].
    destruct (Py.contains s Tool.SZS_SAT) eqn:E2;
      [apply contains_In in E2; contradiction|].
    reflexivity. }
  repeat split.
  - intros s -> Hin. unfold Tool.status_in.
    apply (proj2 (contains_In s Tool.SZS_UNSAT)) in Hin. now rewrite Hin.
  - intros s -> Hin. simpl in Hin.
    destruct Hin as [<-|[<-|[]]]; reflexivity.
  - exact Hother.
  - intros ->. reflexivity.
Qed.

(** C10.  [determine_result] returns for every run record, it never raises,
    and what it returns is one of seven strings: [TIMEOUT], [Parsing error],
    [Incomplete] and the constants [RESULT_ERROR], [RESULT_TRUE_PROP],
    [RESULT_FALSE_PROP], [RESULT_UNKNOWN]; each of the seven is returned for
    some run. *)
Theorem determine_result_total :
  (forall run : Run,
      exists verdict, Tool.determine_result run = Return verdict /\ In verdict verdicts) /\
  Forall (fun verdict => exists run : Run, Tool.determine_result run = Return verdict)
         verdicts.
Proof.
  split.
  - intros run.
    destruct (get_szs_status_returns (output run)) as [status Hstatus].
    destruct (truthy (exit_code run)) eqn:Hexit.
    + apply truthy_true in Hexit as (code & Hcode & Hvalue).
      rewrite (determine_result_abnormal run status code Hstatus Hcode Hvalue).
      eexists. split; [reflexivity|]. unfold verdicts. cbv zeta.
      repeat match goal with
             | |- context [if ?c then _ else _] => destruct c
             end; simpl; tauto.
    + rewrite (determine_result_normal run status Hstatus Hexit).
      eexists. split; [reflexivity|]. unfold verdicts.
      repeat match goal with
             | |- context [if ?c then _ else _] => destruct c
             end; simpl; tauto.
  - unfold verdicts. repeat constructor.
    + exists {| exit_code := Some {| value := 1 |};
                output := ["% Termination reason: Time limit"] |}. reflexivity.
    + exists {| exit_code := Some {| value := 4 |};
                output := ["Parsing error on line 3"] |}. reflexivity.
    + exists {| exit_code := Some {| value := 1 |};
                output := ["% Termination reason: Refutation not found, incomplete strategy"] |}.
      reflexivity.
    + exists {| exit_code := Some {| value := 3 |}; output := [] |}. reflexivity.
    + exists {| exit_code := None; output := ["% SZS status Theorem for foo"] |}.
      reflexivity.
    + exists {| exit_code := None; output := ["% SZS status Satisfiable for foo"] |}.
      reflexivity.
    + exists {| exit_code := None; output := [] |}. reflexivity.
Qed.

End ClassifierProperties.

Lemma determine_result_abnormal_exit_witness :
  truthy (Some {| value := 1 |}) = true /\
  @Tool.determine_result sample_results
    {| exit_code := Some {| value := 1 |};
       output := ["% SZS status GaveUp for foo"; "% Termination reason: Time limit"] |}
  = Return "TIMEOUT".
Proof.
  split; [reflexivity|].
  destruct (@determine_result_abnormal_exit sample_results
              {| exit_code := Some {| value := 1 |};
                 output := ["% SZS status GaveUp for foo";
                            "% Termination reason: Time limit"] |}
              eq_refl)
    as (code & status & Hcode & Hstatus & _ & _ & Htime & _).
  injection Hcode as <-. injection Hstatus as <-.
  apply Htime.
  - discriminate.
  - intros [H4 _]. discriminate H4.
  - reflexivity.
  - reflexivity.
Defined.

Lemma determine_result_normal_exit_witness :
  truthy (Some {| value := 0 |}) = false /\
  @Tool.determine_result sample_results
    {| exit_code := Some {| value := 0 |};
       output := ["% SZS status Theorem for foo"] |}
  = Return "true" /\
  @Tool.determine_result sample_results
    {| exit_code := None; output := ["% SZS status Satisfiable for foo"] |}
  = Return "false".
Proof.
  split; [reflexivity|]. split.
  - destruct (@determine_result_normal_exit sample_results
                {| exit_code := Some {| value := 0 |};
                   output := ["% SZS status Theorem for foo"] |}
                eq_refl)
      as (status & Hstatus & Hunsat & _).
    apply (Hunsat "Theorem").
    + injection Hstatus as <-. reflexivity.
    + right. left. reflexivity.
  - destruct (@determine_result_normal_exit sample_results
                {| exit_code := None; output := ["% SZS status Satisfiable for foo"] |}
                eq_refl)
      as (status & Hstatus & _ & Hsat & _).
    apply (Hsat "Satisfiable").
    + injection Hstatus as <-. reflexivity.
    + right. left. reflexivity.
Defined.

(* ================================================================= *)
(** * Trimming and splitting at a separator *)

Lemma startswith_refl (s : string) : Py.startswith s s = true.
Proof. induction s as [|c s IH]; simpl; [reflexivity|]. now rewrite Ascii.eqb_refl. Qed.

Lemma startswith_trans (s p q : string) :
  Py.startswith s p = true -> Py.startswith p q = true -> Py.startswith s q = true.
Proof.
  revert s p. induction q as [|c q IH]; intros s p Hsp Hpq; simpl in *; [reflexivity|].
  destruct p as [|d p]; [discriminate|].
  apply andb_true_iff in Hpq as [Hcd Hpq]. apply Ascii.eqb_eq in Hcd. subst d.
  simpl in Hsp. destruct s as [|e s]; [discriminate|].
  apply andb_true_iff in Hsp as [Hce Hsp]. rewrite Hce. simpl. now apply (IH s p).
Qed.

Lemma startswith_app (p r : string) : Py.startswith (p ++ r)%string p = true.
Proof. induction p as [|c p IH]; simpl; [reflexivity|]. now rewrite Ascii.eqb_refl. Qed.

Lemma lstrip_head (s : string) : head_not_space (Py.lstrip s) = true.
Proof.
  induction s as [|c s IH]; simpl; [reflexivity|].
  destruct (Py.isspace c) eqn:E; [exact IH|]. simpl. now rewrite E.
Qed.

Lemma lstrip_fixed (s : string) : head_not_space s = true -> Py.lstrip s = s.
Proof.
  destruct s as [|c s]; simpl; [reflexivity|].
  intros H. apply negb_true_iff in H. now rewrite H.
Qed.

Lemma rstrip_startswith (s : string) : Py.startswith s (Py.rstrip s) = true.
Proof.
  induction s as [|c s IH]; simpl; [reflexivity|].
  destruct (Py.rstrip s) as [|d r] eqn:E.
  - destruct (Py.isspace c); simpl; [reflexivity|]. now rewrite Ascii.eqb_refl.
  - simpl. rewrite Ascii.eqb_refl. exact IH.
Qed.

Lemma startswith_head (s p : string) :
  Py.startswith s p = true -> head_not_space s = true -> head_not_space p = true.
Proof.
  destruct p as [|c p]; [reflexivity|]. destruct s as [|d s]; simpl; [discriminate|].
  intros H. apply andb_true_iff in H as [H _]. apply Ascii.eqb_eq in H. now subst.
Qed.

Lemma rstrip_head (s : string) :
  head_not_space s = true -> head_not_space (Py.rstrip s) = true.
Proof. apply startswith_head, rstrip_startswith. Qed.

Lemma rstrip_idempotent (s : string) : Py.rstrip (Py.rstrip s) = Py.rstrip s.
Proof.
  induction s as [|c s IH]; simpl; [reflexivity|].
  destruct (Py.rstrip s) as [|d r] eqn:E.
  - destruct (Py.isspace c) eqn:Hc; simpl; [reflexivity|]. now rewrite Hc.
  - simpl in *. rewrite IH. reflexivity.
Qed.

(** Trimming twice is trimming once. *)
Lemma strip_idempotent (s : string) : Py.strip (Py.strip s) = Py.strip s.
Proof.
  unfold Py.strip.
  rewrite (lstrip_fixed (Py.rstrip (Py.lstrip s))) by apply rstrip_head, lstrip_head.
  apply rstrip_idempotent.
Qed.

Lemma strip_head (s : string) : head_not_space (Py.strip s) = true.
Proof. apply rstrip_head, lstrip_head. Qed.

Lemma lstrip_free_of (c : ascii) (s : string) :
  free_of c s = true -> free_of c (Py.lstrip s) = true.
Proof.
  induction s as [|d s IH]; simpl; [reflexivity|]. intros H.
  apply andb_true_iff in H as [Hd Hs].
  destruct (Py.isspace d); [now apply IH|]. simpl. now rewrite Hd, Hs.
Qed.

Lemma rstrip_free_of (c : ascii) (s : string) :
  free_of c s = true -> free_of c (Py.rstrip s) = true.
Proof.
  induction s as [|d s IH]; simpl; [reflexivity|]. intros H.
  apply andb_true_iff in H as [Hd Hs]. specialize (IH Hs).
  destruct (Py.rstrip s) as [|e r].
  - destruct (Py.isspace d); simpl; [reflexivity|]. now rewrite Hd.
  - simpl in *. now rewrite Hd, IH.
Qed.

Lemma strip_free_of (c : ascii) (s : string) :
  free_of c s = true -> free_of c (Py.strip s) = true.
Proof. intros H. now apply rstrip_free_of, lstrip_free_of. Qed.

Lemma no_whitespace_head (s : string) : no_whitespace s = true -> head_not_space s = true.
Proof. destruct s; simpl; [reflexivity|]. intros H. now apply andb_true_iff in H. Qed.

Lemma rstrip_no_whitespace_app (w s : string) :
  no_whitespace w = true -> Py.rstrip (w ++ s) = (w ++ Py.rstrip s)%string.
Proof.
  induction w as [|c w IH]; simpl; [reflexivity|]. intros H.
  apply andb_true_iff in H as [Hc Hw]. apply negb_true_iff in Hc.
  rewrite (IH Hw), Hc. now destruct (w ++ Py.rstrip s)%string.
Qed.

Lemma rstrip_all_whitespace (s : string) : all_whitespace s = true -> Py.rstrip s = EmptyString.
Proof.
  induction s as [|c s IH]; simpl; [reflexivity|]. intros H.
  apply andb_true_iff in H as [Hc Hs]. now rewrite (IH Hs), Hc.
Qed.

Lemma lstrip_all_whitespace_app (lead s : string) :
  all_whitespace lead = true -> Py.lstrip (lead ++ s) = Py.lstrip s.
Proof.
  induction lead as [|c lead IH]; simpl; [reflexivity|]. intros H.
  apply andb_true_iff in H as [Hc Hl]. rewrite Hc. now apply IH.
Qed.

Lemma append_empty_r (s : string) : (s ++ EmptyString)%string = s.
Proof. induction s as [|c s IH]; simpl; [reflexivity|]. now rewrite IH. Qed.

Lemma append_assoc (a b c : string) : ((a ++ b) ++ c)%string = (a ++ (b ++ c))%string.
Proof. induction a as [|x a IH]; simpl; [reflexivity|]. now rewrite IH. Qed.

(** A word without white space is not changed by trimming. *)
Lemma strip_no_whitespace (w : string) : no_whitespace w = true -> Py.strip w = w.
Proof.
  intros H. unfold Py.strip. rewrite lstrip_fixed by now apply no_whitespace_head.
  rewrite <- (append_empty_r w) at 1. rewrite rstrip_no_whitespace_app by assumption.
  apply append_empty_r.
Qed.

Lemma no_whitespace_free_of_space (w : string) :
  no_whitespace w = true -> free_of " "%char w = true.
Proof.
  induction w as [|c w IH]; simpl; [reflexivity|]. intros H.
  apply andb_true_iff in H as [Hc Hw]. rewrite (IH Hw), andb_true_r.
  destruct (Ascii.eqb c " ") eqn:E; [|reflexivity].
  apply Ascii.eqb_eq in E. subst c. discriminate Hc.
Qed.

(** The first part of a split is what precedes the first separator. *)
Lemma split_on_from_first (sep : ascii) (s word : string) :
  exists p parts,
    Py.split_on_from sep word s = (word ++ p)%string :: parts /\
    free_of sep p = true /\ Py.startswith s p = true.
Proof.
  revert word. induction s as [|c s IH]; intros word; simpl.
  - exists EmptyString, []. now rewrite append_empty_r.
  - destruct (Ascii.eqb c sep) eqn:E.
    + exists EmptyString, (Py.split_on_from sep EmptyString s). now rewrite append_empty_r.
    + destruct (IH (word ++ String c EmptyString)%string) as (p & parts & Hsplit & Hfree & Hpre).
      exists (String c p), parts. rewrite Hsplit, append_assoc. simpl.
      now rewrite E, Hfree, Ascii.eqb_refl, Hpre.
Qed.

(** Without separator there is one part. *)
Lemma split_on_from_free (sep : ascii) (s word : string) :
  free_of sep s = true -> Py.split_on_from sep word s = [(word ++ s)%string].
Proof.
  revert word. induction s as [|c s IH]; intros word; simpl.
  - now rewrite append_empty_r.
  - intros H. apply andb_true_iff in H as [Hc Hs]. apply negb_true_iff in Hc.
    rewrite Hc, (IH _ Hs), append_assoc. reflexivity.
Qed.

(** A part without separator that is followed by one is the first part. *)
Lemma split_on_from_app (sep : ascii) (w rest word : string) :
  free_of sep w = true ->
  exists parts,
    Py.split_on_from sep word (w ++ String sep rest) = (word ++ w)%string :: parts.
Proof.
  revert word. induction w as [|c w IH]; intros word; simpl.
  - intros _. rewrite Ascii.eqb_refl, append_empty_r. now eexists.
  - intros H. apply andb_true_iff in H as [Hc Hw]. apply negb_true_iff in Hc.
    rewrite Hc. destruct (IH (word ++ String c EmptyString)%string Hw) as [parts ->].
    rewrite append_assoc. now eexists.
Qed.

(* ================================================================= *)
(** * The version extractor *)

(** What [version] makes of the line of the tool. *)
Lemma version_of_line (version_from_tool : string -> string -> PyResult string)
    (executable line : string) :
  version_from_tool executable "Vampire" = Return line ->
  exists token parts,
    Py.split_on " " (Py.strip line) = token :: parts /\
    free_of " "%char token = true /\
    Py.startswith (Py.strip line) token = true /\
    Tool.version version_from_tool executable = Return (Py.strip token).
Proof.
  intros Hline. unfold Tool.version. rewrite Hline. cbn [bind].
  destruct (split_on_from_first " " (Py.strip line) EmptyString)
    as (p & parts & Hsplit & Hfree & Hpre).
  exists p, parts. unfold Py.split_on. now rewrite Hsplit.
Qed.

(** X1.  Whenever the primitive of the base class yields a line, [version]
    returns: the index 0 is read from a split, which always has a first part.
    The version has no space in it, is not changed by trimming, and is an
    initial part of the trimmed line.  [version] raises only what the
    primitive raises. *)
Theorem version_returns_first_token (version_from_tool : string -> string -> PyResult string)
    (executable : string) :
  (forall line,
      version_from_tool executable "Vampire" = Return line ->
      exists v,
        Tool.version version_from_tool executable = Return v /\
        free_of " "%char v = true /\
        Py.strip v = v /\
        Py.startswith (Py.strip line) v = true) /\
  (forall e,
      Tool.version version_from_tool executable = Raise e ->
      version_from_tool executable "Vampire" = Raise e).
Proof.
  split.
  - intros line Hline.
    destruct (version_of_line _ _ _ Hline) as (token & parts & _ & Hfree & Hpre & Hv).
    exists (Py.strip token). repeat split.
    + exact Hv.
    + now apply strip_free_of.
    + apply strip_idempotent.
    + apply startswith_trans with token; [exact Hpre|].
      unfold Py.strip. rewrite lstrip_fixed.
      * apply rstrip_startswith.
      * apply (startswith_head (Py.strip line)); [exact Hpre | apply strip_head].
  - intros e He.
    destruct (version_from_tool executable "Vampire") as [line|e'] eqn:Hline.
    + destruct (version_of_line _ _ _ Hline) as (token & parts & _ & _ & _ & Hv).
      rewrite Hv in He. discriminate.
    + unfold Tool.version in He. rewrite Hline in He. exact He.
Qed.

Lemma version_returns_first_token_witness :
  exists v,
    Tool.version (tool_prints "  4.5.1 (commit 5ad494e78 on 2020-11-03)  ") "vampire"
    = Return v /\
    free_of " "%char v = true /\ Py.strip v = v /\
    Py.startswith (Py.strip "  4.5.1 (commit 5ad494e78 on 2020-11-03)  ") v = true.
Proof.
  apply (proj1 (version_returns_first_token
                  (tool_prints "  4.5.1 (commit 5ad494e78 on 2020-11-03)  ") "vampire")).
  reflexivity.
Defined.

(** X2.  A version that [version] returned is returned again when it is the
    line of the tool: extracting is idempotent. *)
Theorem version_idempotent (version_from_tool : string -> string -> PyResult string)
    (executable executable' : string) (v : string) :
  Tool.version version_from_tool executable = Return v ->
  Tool.version (tool_prints v) executable' = Return v.
Proof.
  intros Hv.
  destruct (version_from_tool executable "Vampire") as [line|e] eqn:Hline.
  - destruct (version_of_line _ _ _ Hline) as (token & parts & _ & Hfree & _ & Hv').
    rewrite Hv in Hv'. injection Hv' as ->.
    unfold Tool.version, tool_prints. cbn [bind]. rewrite strip_idempotent.
    unfold Py.split_on. rewrite split_on_from_free by now apply strip_free_of.
    simpl. now rewrite strip_idempotent.
  - unfold Tool.version in Hv. rewrite Hline in Hv. discriminate.
Qed.

Lemma version_idempotent_witness :
  Tool.version (tool_prints "4.5.1") "vampire" = Return "4.5.1".
Proof.
  apply (version_idempotent (tool_prints "4.5.1 (commit 5ad494e78)") "vampire" "vampire").
  reflexivity.
Defined.

(** X3.  When the line of the tool is white space, then a word without white
    space, then either a space and anything or nothing but white space,
    [version] returns that word. *)
Theorem version_first_word (executable lead w tail : string) :
  all_whitespace lead = true ->
  no_whitespace w = true -> w <> EmptyString ->
  (exists rest, tail = String " " rest) \/ all_whitespace tail = true ->
  Tool.version (tool_prints (lead ++ w ++ tail)) executable = Return w.
Proof.
  intros Hlead Hw Hne Htail.
  unfold Tool.version, tool_prints. cbn [bind].
  assert (Hstrip : exists y, Py.strip (lead ++ w ++ tail) = (w ++ y)%string /\
                             (y = EmptyString \/ exists r, y = String " " r)).
  { unfold Py.strip. rewrite lstrip_all_whitespace_app by assumption.
    rewrite lstrip_fixed.
    - rewrite rstrip_no_whitespace_app by assumption.
      exists (Py.rstrip tail). split; [reflexivity|].
      destruct Htail as [[rest ->]|Hall].
      + simpl. destruct (Py.rstrip rest); [now left | right; now eexists].
      + left. now apply rstrip_all_whitespace.
    - destruct w as [|c w]; [contradiction|]. simpl in *.
      now apply andb_true_iff in Hw. }
  destruct Hstrip as (y & -> & Hy).
  assert (Hfree : free_of " "%char w = true) by now apply no_whitespace_free_of_space.
  assert (Hsplit : exists parts, Py.split_on " " (w ++ y) = w :: parts).
  { unfold Py.split_on. destruct Hy as [->|[r ->]].
    - rewrite append_empty_r, split_on_from_free by assumption. now eexists.
    - apply (split_on_from_app " " w r EmptyString Hfree). }
  destruct Hsplit as [parts ->]. simpl.
  now rewrite strip_no_whitespace.
Qed.

Lemma version_first_word_witness :
  Tool.version (tool_prints (" " ++ "4.5.1" ++ " (commit 5ad494e78 on 2020-11-03)")) "vampire"
  = Return "4.5.1".
Proof.
  apply (version_first_word "vampire" " " "4.5.1" " (commit 5ad494e78 on 2020-11-03)").
  - reflexivity.
  - reflexivity.
  - discriminate.
  - left. eexists. reflexivity.
Defined.

(* ================================================================= *)
(** * The termination reasons *)

Lemma startswith_drop (line p : string) :
  Py.startswith line p = true -> (p ++ Py.drop (String.length p) line)%string = line.
Proof.
  revert line. induction p as [|c p IH]; intros line; simpl; [reflexivity|].
  destruct line as [|d line]; [discriminate|]. intros H.
  apply andb_true_iff in H as [Hc Hp]. apply Ascii.eqb_eq in Hc. subst d.
  now rewrite (IH line Hp).
Qed.

Lemma drop_app (p r : string) : Py.drop (String.length p) (p ++ r) = r.
Proof. induction p as [|c p IH]; simpl; [now destruct r | exact IH]. Qed.

(** One turn of the loop. *)
Lemma get_other_termination_reasons_cons (line : string) (rest : list string) :
  Tool.get_other_termination_reasons (line :: rest)
  = if is_reason_line line
    then Py.drop (String.length Tool.reason_prefix) line
         :: Tool.get_other_termination_reasons rest
    else Tool.get_other_termination_reasons rest.
Proof. reflexivity. Qed.

Lemma filter_reason_lines_cons (line : string) (rest : list string) :
  filter is_reason_line (line :: rest)
  = if is_reason_line line then line :: filter is_reason_line rest
    else filter is_reason_line rest.
Proof. reflexivity. Qed.

(** The reasons are the reason lines without their prefix. *)
Lemma get_other_termination_reasons_map (output : RunOutput) :
  Tool.get_other_termination_reasons output
  = map (Py.drop (String.length Tool.reason_prefix)) (filter is_reason_line output).
Proof.
  induction output as [|line rest IH]; [reflexivity|].
  rewrite get_other_termination_reasons_cons, filter_reason_lines_cons.
  destruct (is_reason_line line); [cbn [map]; now rewrite IH | exact IH].
Qed.

(** X4.  A string is among the termination reasons exactly when the output has
    the line made of the reason prefix followed by that string: nothing is
    lost of a reason line but its prefix, and nothing else is reported. *)
Theorem termination_reason_iff_line (output : RunOutput) (r : string) :
  In r (Tool.get_other_termination_reasons output)
  <-> In ("% Termination reason: " ++ r)%string output.
Proof.
  change "% Termination reason: " with Tool.reason_prefix.
  induction output as [|line rest IH]; [reflexivity|].
  rewrite get_other_termination_reasons_cons.
  destruct (is_reason_line line) eqn:Hline.
  - split.
    + intros [Hr|Hr].
      * left. subst r. symmetry. now apply startswith_drop.
      * right. now apply IH.
    + intros [Hl|Hl].
      * left. subst line. apply drop_app.
      * right. now apply IH.
  - rewrite IH. split; [now right|].
    intros [Hl|Hl]; [|assumption].
    subst line. unfold is_reason_line in Hline.
    rewrite startswith_app in Hline. discriminate.
Qed.

Lemma termination_reason_iff_line_witness :
  In "Refutation not found, incomplete strategy"
     (Tool.get_other_termination_reasons
        ["% SZS status GaveUp for foo";
         "% Termination reason: Refutation not found, incomplete strategy"]).
Proof.
  apply (proj2 (termination_reason_iff_line
                  ["% SZS status GaveUp for foo";
                   "% Termination reason: Refutation not found, incomplete strategy"]
                  "Refutation not found, incomplete strategy")).
  right. left. reflexivity.
Defined.

(** X5.  The reasons of two outputs one after the other are the reasons of
    the first followed by those of the second, so the order of the lines and
    repeated reasons are kept; there are as many reasons as reason lines. *)
Theorem termination_reasons_app (output1 output2 : RunOutput) :
  Tool.get_other_termination_reasons (output1 ++ output2)
  = Tool.get_other_termination_reasons output1 ++ Tool.get_other_termination_reasons output2
  /\ List.length (Tool.get_other_termination_reasons output1)
     = List.length (filter is_reason_line output1)
  /\ (List.length (Tool.get_other_termination_reasons output1) <= List.length output1)%nat.
Proof.
  rewrite !get_other_termination_reasons_map. repeat split.
  - now rewrite filter_app, map_app.
  - apply length_map.
  - rewrite length_map. apply filter_length_le.
Qed.

(** X6.  The reasons are exactly the one string [r] if and only if the output
    has exactly one reason line and that line is the prefix followed by [r];
    lines that are no reason lines do not count. *)
Theorem termination_reasons_single (output : RunOutput) (r : string) :
  Tool.get_other_termination_reasons output = [r]
  <-> filter is_reason_line output = [("% Termination reason: " ++ r)%string].
Proof.
  change "% Termination reason: " with Tool.reason_prefix.
  rewrite get_other_termination_reasons_map.
  assert (Hlines : forall line, In line (filter is_reason_line output) ->
            (Tool.reason_prefix ++ Py.drop (String.length Tool.reason_prefix) line)%string
            = line).
  { intros line Hin. apply filter_In in Hin as [_ H]. now apply startswith_drop. }
  destruct (filter is_reason_line output) as [|line [|line' lines]]; cbn [map].
  - split; discriminate.
  - split.
    + intros H. injection H as <-. f_equal. symmetry. apply Hlines. now left.
    + intros H. injection H as ->. f_equal; apply drop_app.
  - split; discriminate.
Qed.

Lemma termination_reasons_single_witness :
  Tool.get_other_termination_reasons
    ["% Time limit reached!"; "% Termination reason: Time limit";
     "% Termination phase: Saturation"]
  = ["Time limit"].
Proof.
  apply (proj2 (termination_reasons_single
                  ["% Time limit reached!"; "% Termination reason: Time limit";
                   "% Termination phase: Saturation"] "Time limit")).
  reflexivity.
Defined.

(* ================================================================= *)
(** * More on the status extractor *)

Lemma filter_status_lines_cons (line : string) (rest : list string) :
  filter is_status_line (line :: rest)
  = if is_status_line line then line :: filter is_status_line rest
    else filter is_status_line rest.
Proof. reflexivity. Qed.

Lemma get_szs_status_loop_filter (output : list string) (status : option string) :
  Tool.get_szs_status_loop status output
  = Tool.get_szs_status_loop status (filter is_status_line output).
Proof.
  revert status. induction output as [|line rest IH]; intros status; [reflexivity|].
  rewrite filter_status_lines_cons.
  destruct (is_status_line line) eqn:Hline.
  - destruct status as [s|].
    + now rewrite !get_szs_status_loop_cons, Hline.
    + rewrite !get_szs_status_loop_first_line by assumption. apply IH.
  - rewrite get_szs_status_loop_cons, Hline. apply IH.
Qed.

(** X7.  The status depends on the status lines only: lines that do not start
    with the status prefix can be removed from the output, or added to it
    anywhere, without changing what [get_szs_status] returns. *)
Theorem get_szs_status_status_lines_only (output : RunOutput) :
  Tool.get_szs_status output = Tool.get_szs_status (filter is_status_line output).
Proof. apply get_szs_status_loop_filter. Qed.

Lemma no_whitespace_snoc (word : string) (c : ascii) :
  no_whitespace word = true -> Py.isspace c = false ->
  no_whitespace (word ++ String c EmptyString) = true.
Proof.
  induction word as [|d word IH]; simpl; intros Hw Hc.
  - now rewrite Hc.
  - apply andb_true_iff in Hw as [Hd Hw]. now rewrite Hd, IH.
Qed.

(** No word of [split] has white space in it. *)
Lemma split_from_no_whitespace (s word : string) :
  no_whitespace word = true ->
  Forall (fun w => no_whitespace w = true) (Py.split_from word s).
Proof.
  revert word. induction s as [|c s IH]; intros word Hword; simpl.
  - destruct word; constructor; [assumption | constructor].
  - destruct (Py.isspace c) eqn:Hc.
    + destruct word; [now apply IH | constructor; [assumption | now apply IH]].
    + apply IH. now apply no_whitespace_snoc.
Qed.

Lemma split_no_whitespace (s w : string) : In w (Py.split s) -> no_whitespace w = true.
Proof.
  intros Hin. pose proof (split_from_no_whitespace s EmptyString eq_refl) as H.
  rewrite Forall_forall in H. now apply H.
Qed.

Lemma get_szs_status_loop_origin (output : list string) (status : option string)
    (s : string) :
  Tool.get_szs_status_loop status output = Return (Some s) ->
  status = Some s \/
  exists line, In line output /\ is_status_line line = true /\
               nth_error (Py.split line) 3 = Some s.
Proof.
  revert status. induction output as [|line rest IH]; intros status.
  - simpl. intros H. injection H as ->. now left.
  - destruct (is_status_line line) eqn:Hline.
    + destruct status as [t|].
      * rewrite get_szs_status_loop_cons, Hline. discriminate.
      * rewrite get_szs_status_loop_first_line by assumption. intros H.
        right. destruct (IH _ H) as [Hs | (l & Hin & Hl & Hs)].
        -- exists line. repeat split; [now left | assumption..].
        -- exists l. repeat split; [now right | assumption..].
    + rewrite get_szs_status_loop_cons, Hline. intros H.
      destruct (IH _ H) as [Hs | (l & Hin & Hl & Hs)]; [now left|].
      right. exists l. repeat split; [now right | assumption..].
Qed.

(** X8.  [get_szs_status] returns for every output: the fourth word is read
    only from lines that have one.  A status it returns is the fourth word of
    a line of the output that starts with the status prefix; it is not empty
    and has no white space in it. *)
Theorem get_szs_status_is_fourth_word (output : RunOutput) :
  (exists status, Tool.get_szs_status output = Return status) /\
  (forall s,
      Tool.get_szs_status output = Return (Some s) ->
      (exists line, In line output /\ is_status_line line = true /\
                    nth_error (Py.split line) 3 = Some s) /\
      s <> EmptyString /\ no_whitespace s = true).
Proof.
  split; [apply get_szs_status_returns|].
  intros s Hs.
  destruct (get_szs_status_loop_origin output None s Hs) as [H|(line & Hin & Hline & Hw)];
    [discriminate|].
  repeat split.
  - now exists line.
  - now apply (get_szs_status_nonempty output).
  - apply (split_no_whitespace line). eapply nth_error_In; eassumption.
Qed.

Lemma get_szs_status_is_fourth_word_witness :
  (exists line,
      In line ["Vampire 4.5.1"; "% SZS status Unsatisfiable for SYN001-1"] /\
      is_status_line line = true /\
      nth_error (Py.split line) 3 = Some "Unsatisfiable") /\
  "Unsatisfiable" <> EmptyString /\ no_whitespace "Unsatisfiable" = true.
Proof.
  apply (proj2 (get_szs_status_is_fourth_word
                  ["Vampire 4.5.1"; "% SZS status Unsatisfiable for SYN001-1"])).
  reflexivity.
Defined.

(* ================================================================= *)
(** * More on the result classifier *)

Lemma filter_filter_implied {A : Type} (f g : A -> bool) (l : list A) :
  (forall x, f x = true -> g x = true) -> filter f (filter g l) = filter f l.
Proof.
  intros Hfg. induction l as [|x l IH]; [reflexivity|]. cbn [filter].
  destruct (g x) eqn:Hg.
  - cbn [filter]. destruct (f x); now rewrite IH.
  - destruct (f x) eqn:Hf; [|exact IH]. rewrite (Hfg x Hf) in Hg. discriminate.
Qed.

Section ClassifierReads.

Context {results : ResultConstants}.

(** The classifier reads the exit code, the status, the reasons and the
    start of the first line, and nothing else. *)
Lemma determine_result_reads (run1 run2 : Run) :
  exit_code run1 = exit_code run2 ->
  Tool.get_szs_status (output run1) = Tool.get_szs_status (output run2) ->
  Tool.get_other_termination_reasons (output run1)
  = Tool.get_other_termination_reasons (output run2) ->
  first_line_startswith (output run1) "Parsing error"
  = first_line_startswith (output run2) "Parsing error" ->
  Tool.determine_result run1 = Tool.determine_result run2.
Proof.
  intros Hc Hs Hr Hf. unfold Tool.determine_result.
  rewrite !startswith_text by (reflexivity || discriminate).
  now rewrite Hc, Hs, Hr, Hf.
Qed.

(** On an abnormal exit the verdict is one of four strings. *)
Lemma determine_result_abnormal_verdicts (run : Run) :
  truthy (exit_code run) = true ->
  exists verdict,
    Tool.determine_result run = Return verdict /\
    In verdict ["TIMEOUT"; "Parsing error"; "Incomplete"; RESULT_ERROR].
Proof.
  intros Hexit.
  apply truthy_true in Hexit as (code & Hcode & Hvalue).
  destruct (get_szs_status_returns (output run)) as [status Hstatus].
  rewrite (determine_result_abnormal run status code Hstatus Hcode Hvalue).
  eexists. split; [reflexivity|]. cbv zeta.
  repeat match goal with
         | |- context [if ?c then _ else _] => destruct c
         end; simpl; tauto.
Qed.

(** X9.  Whatever the output says, a run with an abnormal exit status is
    never classified as proved or disproved: provided the constants
    [RESULT_TRUE_PROP] and [RESULT_FALSE_PROP] differ from [RESULT_ERROR] and
    from the three informational strings, [determine_result] returns neither
    of them. *)
Theorem determine_result_abnormal_exit_undecided (run : Run) :
  truthy (exit_code run) = true ->
  ~ In RESULT_TRUE_PROP ["TIMEOUT"; "Parsing error"; "Incomplete"; RESULT_ERROR] ->
  ~ In RESULT_FALSE_PROP ["TIMEOUT"; "Parsing error"; "Incomplete"; RESULT_ERROR] ->
  Tool.determine_result run <> Return RESULT_TRUE_PROP /\
  Tool.determine_result run <> Return RESULT_FALSE_PROP.
Proof.
  intros Hexit Htrue Hfalse.
  destruct (determine_result_abnormal_verdicts run Hexit) as (verdict & Hv & Hin).
  rewrite Hv. split; intros H; injection H as ->; contradiction.
Qed.

(** X10.  The verdict depends only on the exit code, on the lines that start
    with the status prefix, on the lines that start with the reason prefix
    and on whether the first line starts with [Parsing error]: two runs that
    agree on these get the same verdict, whatever their other lines are. *)
Theorem determine_result_relevant_lines (run1 run2 : Run) :
  exit_code run1 = exit_code run2 ->
  filter is_status_line (output run1) = filter is_status_line (output run2) ->
  filter is_reason_line (output run1) = filter is_reason_line (output run2) ->
  first_line_startswith (output run1) "Parsing error"
  = first_line_startswith (output run2) "Parsing error" ->
  Tool.determine_result run1 = Tool.determine_result run2.
Proof.
  intros Hc Hs Hr Hf. apply determine_result_reads; try assumption.
  - unfold Tool.get_szs_status.
    rewrite (get_szs_status_loop_filter (output run1)),
            (get_szs_status_loop_filter (output run2)).
    now rewrite Hs.
  - rewrite !get_other_termination_reasons_map. now rewrite Hr.
Qed.

(** X11.  A run that exits with code 1 and whose only line starting with the
    reason prefix is [% Termination reason: Time limit] is classified as
    [TIMEOUT], whatever its status lines and other lines are. *)
Theorem determine_result_time_limit (run : Run) (code : ProcessExitCode) :
  exit_code run = Some code -> value code = 1 ->
  filter is_reason_line (output run) = ["% Termination reason: Time limit"] ->
  Tool.determine_result run = Return "TIMEOUT".
Proof.
  intros Hcode Hvalue Hlines.
  destruct (get_szs_status_returns (output run)) as [status Hstatus].
  rewrite (determine_result_abnormal run status code Hstatus Hcode)
    by (rewrite Hvalue; discriminate).
  rewrite get_other_termination_reasons_map, Hlines, Hvalue.
  destruct (Tool.status_is status "Timeout"); reflexivity.
Qed.

(** X12.  After a normal exit, two status lines of which the first has a
    fourth word give [RESULT_UNKNOWN], also when both name the same status;
    and so does every status of [SZS_FAIL], [Timeout] included. *)
Theorem determine_result_normal_exit_unknown (run : Run) :
  truthy (exit_code run) = false ->
  (forall pre line post,
      output run = pre ++ line :: post ->
      count_status_lines pre = 0%nat -> is_status_line line = true ->
      well_formed line = true -> (1 <= count_status_lines post)%nat ->
      Tool.determine_result run = Return RESULT_UNKNOWN) /\
  (forall s,
      Tool.get_szs_status (output run) = Return (Some s) -> In s Tool.SZS_FAIL ->
      Tool.determine_result run = Return RESULT_UNKNOWN).
Proof.
  intros Hexit. split.
  - intros pre line post Hout Hpre Hline Hwf Hpost.
    assert (Hs : Tool.get_szs_status (output run) = Return None).
    { rewrite Hout. now apply get_szs_status_after_well_formed. }
    now rewrite (determine_result_normal run None Hs Hexit).
  - intros s Hs Hin.
    rewrite (determine_result_normal run (Some s) Hs Hexit).
    destruct Hin as [<-|[<-|[<-|[]]]]; reflexivity.
Qed.


End ClassifierReads.

Lemma determine_result_abnormal_exit_undecided_witness :
  @Tool.determine_result sample_results
    {| exit_code := Some {| value := 1 |};
       output := ["% SZS status Theorem for SYN001-1"] |}
  <> Return "true" /\
  @Tool.determine_result sample_results
    {| exit_code := Some {| value := 1 |};
       output := ["% SZS status Theorem for SYN001-1"] |}
  <> Return "false".
Proof.
  apply (@determine_result_abnormal_exit_undecided sample_results
           {| exit_code := Some {| value := 1 |};
              output := ["% SZS status Theorem for SYN001-1"] |}).
  - reflexivity.
  - simpl. intros [H|[H|[H|[H|[]]]]]; discriminate H.
  - simpl. intros [H|[H|[H|[H|[]]]]]; discriminate H.
Defined.

Lemma determine_result_relevant_lines_witness :
  @Tool.determine_result sample_results
    {| exit_code := None;
       output := ["% Running in auto input_syntax mode"; "% SZS status Theorem for foo";
                  "% SZS output start Proof for foo"] |}
  = @Tool.determine_result sample_results
      {| exit_code := None; output := ["% SZS status Theorem for foo"] |}.
Proof.
  apply (@determine_result_relevant_lines sample_results); reflexivity.
Defined.

Lemma determine_result_time_limit_witness :
  @Tool.determine_result sample_results
    {| exit_code := Some {| value := 1 |};
       output := ["% SZS status Theorem for foo"; "% Termination reason: Time limit";
                  "% Termination phase: Saturation"] |}
  = Return "TIMEOUT".
Proof.
  apply (@determine_result_time_limit sample_results _ {| value := 1 |}); reflexivity.
Defined.

Lemma determine_result_normal_exit_unknown_witness :
  @Tool.determine_result sample_results
    {| exit_code := Some {| value := 0 |};
       output := ["% SZS status Theorem for foo"; "% SZS status Theorem for foo"] |}
  = Return "unknown" /\
  @Tool.determine_result sample_results
    {| exit_code := None; output := ["% SZS status Timeout for foo"] |}
  = Return "unknown".
Proof.
  split.
  - apply (proj1 (@determine_result_normal_exit_unknown sample_results
                    {| exit_code := Some {| value := 0 |};
                       output := ["% SZS status Theorem for foo";
                                  "% SZS status Theorem for foo"] |} eq_refl)
             [] "% SZS status Theorem for foo" ["% SZS status Theorem for foo"]);
      first [reflexivity | apply le_n].
  - apply (proj2 (@determine_result_normal_exit_unknown sample_results
                    {| exit_code := None; output := ["% SZS status Timeout for foo"] |}
                    eq_refl) "Timeout"); [reflexivity | now left].
Defined.



(* ================================================================= *)
(** * More on the statistic extractor *)

(** The value for [szs-status] is the status, or the placeholder. *)
Lemma get_value_from_output_or_else (output : RunOutput) (status : option string) :
  Tool.get_szs_status output = Return status ->
  snd (Tool.get_value_from_output output "szs-status")
  = Return (Some match status with
                 | Some s => s
                 | None => "--"
                 end).
Proof.
  intros Hs. unfold Tool.get_value_from_output. simpl. rewrite Hs. simpl.
  destruct status as [s|]; [|reflexivity].
  pose proof (get_szs_status_nonempty output s Hs) as Hne.
  destruct s; [contradiction | reflexivity].
Qed.

(** X14.  For the identifier [szs-status] the extractor returns a string for
    every output, never empty and without white space; for every other
    identifier it returns nothing, whatever the output. *)
Theorem get_value_from_output_value (output : RunOutput) (identifier : string) :
  (identifier = "szs-status" ->
   exists v, snd (Tool.get_value_from_output output identifier) = Return (Some v) /\
             v <> EmptyString /\ no_whitespace v = true) /\
  (identifier <> "szs-status" ->
   snd (Tool.get_value_from_output output identifier) = Return None).
Proof.
  split.
  - intros ->.
    destruct (get_szs_status_returns output) as [status Hs].
    rewrite (get_value_from_output_or_else output status Hs).
    destruct status as [s|].
    + exists s. repeat split.
      * now apply (get_szs_status_nonempty output).
      * destruct (get_szs_status_loop_origin output None s Hs)
          as [H|(line & _ & _ & Hw)]; [discriminate|].
        apply (split_no_whitespace line). eapply nth_error_In; eassumption.
    + exists "--". repeat split. discriminate.
  - intros Hid. unfold Tool.get_value_from_output. simpl.
    apply String.eqb_neq in Hid. now rewrite Hid.
Qed.

Lemma get_value_from_output_value_witness :
  (exists v,
      snd (Tool.get_value_from_output ["% SZS status"; "% SZS status GaveUp for foo"]
             "szs-status") = Return (Some v) /\
      v <> EmptyString /\ no_whitespace v = true) /\
  snd (Tool.get_value_from_output ["% SZS status GaveUp for foo"] "cpu-time")
  = Return None.
Proof.
  split.
  - apply (proj1 (get_value_from_output_value
                    ["% SZS status"; "% SZS status GaveUp for foo"] "szs-status")).
    reflexivity.
  - apply (proj2 (get_value_from_output_value ["% SZS status GaveUp for foo"] "cpu-time")).
    discriminate.
Defined.

Section ValueAndVerdict.

Context {results : ResultConstants}.

(** X15.  After a normal exit the value shown for [szs-status] and the
    verdict agree: a value in [SZS_UNSAT] comes with [RESULT_TRUE_PROP], a
    value in [SZS_SAT] with [RESULT_FALSE_PROP], and every other value, the
    placeholder included, with [RESULT_UNKNOWN]. *)
Theorem get_value_from_output_matches_verdict (run : Run) (v : string) :
  truthy (exit_code run) = false ->
  snd (Tool.get_value_from_output (output run) "szs-status") = Return (Some v) ->
  (In v Tool.SZS_UNSAT -> Tool.determine_result run = Return RESULT_TRUE_PROP) /\
  (In v Tool.SZS_SAT -> Tool.determine_result run = Return RESULT_FALSE_PROP) /\
  (~ In v Tool.SZS_UNSAT -> ~ In v Tool.SZS_SAT ->
   Tool.determine_result run = Return RESULT_UNKNOWN).
Proof.
  intros Hexit Hv.
  destruct (get_szs_status_returns (output run)) as [status Hs].
  rewrite (get_value_from_output_or_else _ status Hs) in Hv. injection Hv as Hv.
  rewrite (determine_result_normal run status Hs Hexit).
  destruct status as [s|]; subst v.
  - unfold Tool.status_in. repeat split.
    + intros Hin. apply contains_In in Hin. now rewrite Hin.
    + intros Hin. simpl in Hin. destruct Hin as [<-|[<-|[]]]; reflexivity.
    + intros Hu Hsat.
      destruct (Py.contains s Tool.SZS_UNSAT) eqn:E1;
        [apply contains_In in E1; contradiction|].
      destruct (Py.contains s Tool.SZS_SAT) eqn:E2;
        [apply contains_In in E2; contradiction|].
      reflexivity.
  - repeat split.
    + simpl. intros [H|[H|[H|[]]]]; discriminate H.
    + simpl. intros [H|[H|[]]]; discriminate H.
Qed.

End ValueAndVerdict.

Lemma get_value_from_output_matches_verdict_witness :
  @Tool.determine_result sample_results
    {| exit_code := Some {| value := 0 |};
       output := ["% SZS status CounterSatisfiable for foo"] |}
  = Return "false".
Proof.
  apply (proj1 (proj2 (@get_value_from_output_matches_verdict sample_results
                         {| exit_code := Some {| value := 0 |};
                            output := ["% SZS status CounterSatisfiable for foo"] |}
                         "CounterSatisfiable" eq_refl eq_refl))).
  now left.
Defined.

(* ================================================================= *)
(** * More on the command-line builder *)

Lemma cmdline_too_many_files (executable : string) (options : list string)
    (task : Task) (rlimits : ResourceLimits) :
  (1 < List.length (input_files task))%nat ->
  Tool.cmdline executable options task rlimits
  = (Raise (AssertionError "only one input file supported"), options).
Proof.
  intros Hlen. unfold Tool.cmdline, cbind, assert_, lift.
  replace (Nat.leb (List.length (input_files task)) 1) with false; [reflexivity|].
  symmetry. now apply Nat.leb_gt.
Qed.

Lemma has_time_option_app (options tokens : list string) :
  has_time_option (options ++ tokens) = has_time_option options || has_time_option tokens.
Proof.
  unfold has_time_option. rewrite !contains_app.
  destruct (Py.contains "-t" options), (Py.contains "--time_limit" options),
    (Py.contains "-t" tokens); reflexivity.
Qed.

Lemma has_memory_option_app (options tokens : list string) :
  has_memory_option (options ++ tokens)
  = has_memory_option options || has_memory_option tokens.
Proof.
  unfold has_memory_option. rewrite !contains_app.
  destruct (Py.contains "-m" options), (Py.contains "--memory_limit" options),
    (Py.contains "-m" tokens); reflexivity.
Qed.

(** After the first block the options name a time limit. *)
Lemma has_time_option_time_tokens (options rest : list string) (rlimits : ResourceLimits) :
  has_time_option (options ++ time_tokens options rlimits ++ rest) = true.
Proof.
  rewrite has_time_option_app. unfold time_tokens.
  destruct (has_time_option options); reflexivity.
Qed.

Lemma time_tokens_settled (options rest : list string) (rlimits rlimits' : ResourceLimits) :
  time_tokens (options ++ time_tokens options rlimits ++ rest) rlimits' = [].
Proof.
  unfold time_tokens at 1. now rewrite has_time_option_time_tokens.
Qed.

Lemma time_tokens_settled_nil (options : list string) (rlimits rlimits' : ResourceLimits) :
  time_tokens (options ++ time_tokens options rlimits) rlimits' = [].
Proof.
  rewrite <- (app_nil_r (time_tokens options rlimits)). apply time_tokens_settled.
Qed.

(** The second block looks at the options only for a memory option. *)
Lemma memory_tokens_same_option (options options' : list string)
    (rlimits : ResourceLimits) :
  has_memory_option options = has_memory_option options' ->
  memory_tokens options rlimits = memory_tokens options' rlimits.
Proof. unfold memory_tokens. now intros ->. Qed.

(** Once [cmdline] has passed its assertion, a call on the same list object
    with the same limits finds nothing to append. *)
Lemma cmdline_blocks_settled (options : list string) (rlimits : ResourceLimits) :
  match memory_tokens options rlimits with
  | Return mem =>
      memory_tokens (options ++ time_tokens options rlimits ++ mem) rlimits = Return []
  | Raise e =>
      memory_tokens (options ++ time_tokens options rlimits) rlimits = Raise e
  end.
Proof.
  destruct (memory_tokens options rlimits) as [mem|e] eqn:Hmem.
  - unfold memory_tokens in *.
    rewrite app_assoc, has_memory_option_app, has_memory_option_time_tokens.
    destruct (has_memory_option options); [reflexivity|].
    destruct (memory rlimits) as [m|]; [|now destruct (has_memory_option mem)].
    unfold bind in Hmem.
    destruct (Py.true_divide m (1024 * 1024)) as [x|e]; [|discriminate].
    injection Hmem as <-. reflexivity.
  - rewrite <- Hmem. apply memory_tokens_same_option, has_memory_option_time_tokens.
Qed.

(** X16.  When the user options name both a time limit and a memory limit,
    [cmdline] appends nothing, whatever the limits of the run: it returns the
    executable, the options and the input files, and leaves the caller's list
    as it was. *)
Theorem cmdline_user_limits_pass_through (executable : string) (options : list string)
    (task : Task) (rlimits : ResourceLimits) :
  (List.length (input_files task) <= 1)%nat ->
  has_time_option options = true -> has_memory_option options = true ->
  Tool.cmdline executable options task rlimits
  = (Return ([executable] ++ options ++ input_files task), options).
Proof.
  intros Hlen Htime Hmem. rewrite cmdline_blocks by assumption.
  unfold memory_tokens, time_tokens. rewrite Htime, Hmem. simpl.
  now rewrite app_nil_r.
Qed.

Lemma cmdline_user_limits_pass_through_witness :
  Tool.cmdline "vampire" ["--time_limit"; "60"; "--memory_limit"; "1000"]
    {| input_files := ["problem.p"] |}
    {| walltime := Some 900; memory := Some (8 * 1024 ^ 3) |}
  = (Return (["vampire"] ++ ["--time_limit"; "60"; "--memory_limit"; "1000"]
             ++ ["problem.p"]),
     ["--time_limit"; "60"; "--memory_limit"; "1000"]).
Proof.
  apply (cmdline_user_limits_pass_through "vampire"
           ["--time_limit"; "60"; "--memory_limit"; "1000"]
           {| input_files := ["problem.p"] |}
           {| walltime := Some 900; memory := Some (8 * 1024 ^ 3) |});
    [apply le_n | reflexivity | reflexivity].
Defined.

(** X17.  [cmdline] extends the list it is given, and a second call on that
    list with the same limits extends it no further: after a call that passed
    its assertion, calling again, for any executable and task, leaves the
    list as the first call left it. *)
Theorem cmdline_options_idempotent (executable executable' : string)
    (options : list string) (task task' : Task) (rlimits : ResourceLimits) :
  (List.length (input_files task) <= 1)%nat ->
  snd (Tool.cmdline executable'
         (snd (Tool.cmdline executable options task rlimits)) task' rlimits)
  = snd (Tool.cmdline executable options task rlimits).
Proof.
  intros Hlen.
  destruct (Nat.leb (List.length (input_files task')) 1) eqn:Hlen'.
  - apply Nat.leb_le in Hlen'.
    rewrite (cmdline_blocks executable' _ task' rlimits Hlen').
    rewrite (cmdline_blocks executable options task rlimits Hlen).
    pose proof (cmdline_blocks_settled options rlimits) as Hsettled.
    destruct (memory_tokens options rlimits) as [mem|e]; cbn [snd].
    + rewrite Hsettled. cbn [snd]. rewrite time_tokens_settled. now rewrite !app_nil_r.
    + rewrite Hsettled. cbn [snd]. rewrite time_tokens_settled_nil. now rewrite !app_nil_r.
  - apply Nat.leb_gt in Hlen'. now rewrite cmdline_too_many_files.
Qed.

Lemma cmdline_options_idempotent_witness :
  snd (Tool.cmdline "vampire"
         (snd (Tool.cmdline "vampire" ["--mode"; "casc"] {| input_files := ["a.p"] |}
                 {| walltime := Some 30; memory := Some (2 * 1024 ^ 3) |}))
         {| input_files := ["b.p"] |}
         {| walltime := Some 30; memory := Some (2 * 1024 ^ 3) |})
  = snd (Tool.cmdline "vampire" ["--mode"; "casc"] {| input_files := ["a.p"] |}
           {| walltime := Some 30; memory := Some (2 * 1024 ^ 3) |}).
Proof.
  apply (cmdline_options_idempotent "vampire" "vampire" ["--mode"; "casc"]
           {| input_files := ["a.p"] |} {| input_files := ["b.p"] |}
           {| walltime := Some 30; memory := Some (2 * 1024 ^ 3) |}).
  apply le_n.
Defined.

(** X18.  The time limit of the first call stays: when [cmdline] has appended
    [-t] with the value of its limits to a list, a later call on that list,
    with whatever limits, appends no [-t]; the list then is the options, the
    first call's [-t] and value, and at most the memory tokens of the two
    calls. *)
Theorem cmdline_first_time_limit_stays (executable executable' : string)
    (options : list string) (task task' : Task) (rlimits rlimits' : ResourceLimits) :
  (List.length (input_files task) <= 1)%nat ->
  has_time_option options = false ->
  exists mem mem',
    snd (Tool.cmdline executable options task rlimits)
    = options ++ ["-t"; time_value rlimits] ++ mem /\
    snd (Tool.cmdline executable'
           (snd (Tool.cmdline executable options task rlimits)) task' rlimits')
    = options ++ ["-t"; time_value rlimits] ++ mem ++ mem' /\
    (mem = [] \/ exists n, mem = ["-m"; Py.str n]) /\
    (mem' = [] \/ exists n, mem' = ["-m"; Py.str n]) /\
    ~ In "-t" (mem ++ mem').
Proof.
  intros Hlen Htime.
  assert (Hshape : forall opts rl l,
             memory_tokens opts rl = Return l -> l = [] \/ exists n, l = ["-m"; Py.str n]).
  { intros opts rl l H. destruct (memory_tokens_shape _ _ _ H) as [->|([n ->] & _)];
      [now left | right; now exists n]. }
  assert (Hnot : forall l l', (l = [] \/ exists n, l = ["-m"; Py.str n]) ->
                              (l' = [] \/ exists n, l' = ["-m"; Py.str n]) ->
                              ~ In "-t" (l ++ l')).
  { intros l l' Hl Hl' Hin. apply in_app_or in Hin.
    assert (H : forall k, (k = [] \/ exists n, k = ["-m"; Py.str n]) -> ~ In "-t" k).
    { intros k [->|[n ->]]; [intros []|].
      destruct (str_not_option n) as (Ht & _).
      intros [H|[H|[]]]; [discriminate H | now apply Ht]. }
    destruct Hin as [Hin|Hin]; [now apply (H l) | now apply (H l')]. }
  rewrite (cmdline_blocks executable options task rlimits Hlen).
  assert (Htok : time_tokens options rlimits = ["-t"; time_value rlimits]).
  { unfold time_tokens. now rewrite Htime. }
  assert (Hsecond : forall mem,
             (mem = [] \/ exists n, mem = ["-m"; Py.str n]) ->
             exists mem',
               snd (Tool.cmdline executable'
                      (options ++ time_tokens options rlimits ++ mem) task' rlimits')
               = options ++ ["-t"; time_value rlimits] ++ mem ++ mem' /\
               (mem' = [] \/ exists n, mem' = ["-m"; Py.str n])).
  { intros mem Hmem.
    destruct (Nat.leb (List.length (input_files task')) 1) eqn:Hlen'.
    - apply Nat.leb_le in Hlen'. rewrite (cmdline_blocks executable' _ task' rlimits' Hlen').
      rewrite time_tokens_settled. rewrite Htok.
      destruct (memory_tokens _ rlimits') as [mem'|e] eqn:Hmem'; cbn [snd].
      + exists mem'. split; [now rewrite <- !app_assoc | now apply (Hshape _ _ _ Hmem')].
      + exists []. split; [now rewrite <- !app_assoc, !app_nil_r | now left].
    - apply Nat.leb_gt in Hlen'. rewrite cmdline_too_many_files by assumption.
      exists []. cbn [snd]. rewrite Htok, !app_nil_r. split; [reflexivity | now left]. }
  destruct (memory_tokens options rlimits) as [mem|e] eqn:Hmem; cbn [snd].
  - specialize (Hshape _ _ _ Hmem).
    destruct (Hsecond mem Hshape) as (mem' & Hsnd & Hshape').
    exists mem, mem'. rewrite Htok in *. repeat split; try assumption.
    now apply Hnot.
  - destruct (Hsecond [] (or_introl eq_refl)) as (mem' & Hsnd & Hshape').
    rewrite app_nil_r in Hsnd.
    exists [], mem'. rewrite Htok in *. rewrite app_nil_r. repeat split; try assumption.
    + now left.
    + apply Hnot; [now left | assumption].
Qed.

Lemma cmdline_first_time_limit_stays_witness :
  exists mem mem',
    snd (Tool.cmdline "vampire" ["--mode"; "casc"] {| input_files := ["a.p"] |}
           {| walltime := Some 30; memory := None |})
    = ["--mode"; "casc"] ++ ["-t"; "30s"] ++ mem /\
    snd (Tool.cmdline "vampire"
           (snd (Tool.cmdline "vampire" ["--mode"; "casc"] {| input_files := ["a.p"] |}
                   {| walltime := Some 30; memory := None |}))
           {| input_files := ["b.p"] |}
           {| walltime := Some 900; memory := Some (2 * 1024 ^ 3) |})
    = ["--mode"; "casc"] ++ ["-t"; "30s"] ++ mem ++ mem' /\
    (mem = [] \/ exists n, mem = ["-m"; Py.str n]) /\
    (mem' = [] \/ exists n, mem' = ["-m"; Py.str n]) /\
    ~ In "-t" (mem ++ mem').
Proof.
  apply (cmdline_first_time_limit_stays "vampire" "vampire" ["--mode"; "casc"]
           {| input_files := ["a.p"] |} {| input_files := ["b.p"] |}
           {| walltime := Some 30; memory := None |}
           {| walltime := Some 900; memory := Some (2 * 1024 ^ 3) |});
    [apply le_n | reflexivity].
Defined.

(** X19.  [cmdline] raises in two cases only: the assertion, when the task
    has more than one input file; and [OverflowError] from the division of
    the memory ceiling, when the options name no memory limit and the ceiling
    is at least [2 ^ 1043] bytes in absolute value. *)
Theorem cmdline_raises_only (executable : string) (options : list string)
    (task : Task) (rlimits : ResourceLimits) (e : PyExn) :
  fst (Tool.cmdline executable options task rlimits) = Raise e ->
  (e = AssertionError "only one input file supported" /\
   (1 < List.length (input_files task))%nat) \/
  (e = OverflowError "integer division result too large for a float" /\
   (List.length (input_files task) <= 1)%nat /\
   has_memory_option options = false /\
   exists m, memory rlimits = Some m /\ 2 ^ 1043 <= Z.abs m).
Proof.
  destruct (Nat.leb (List.length (input_files task)) 1) eqn:Hlen.
  - apply Nat.leb_le in Hlen. rewrite cmdline_blocks by assumption.
    destruct (memory_tokens options rlimits) as [mem|e'] eqn:Hmem; cbn [fst];
      [discriminate|].
    intros H. injection H as <-. right.
    split; [now apply (memory_tokens_raise options rlimits)|].
    split; [assumption|].
    destruct (has_memory_option options) eqn:Hopt.
    + unfold memory_tokens in Hmem. rewrite Hopt in Hmem. discriminate.
    + split; [reflexivity|].
      destruct (memory rlimits) as [m|] eqn:Hm.
      * exists m. split; [reflexivity|].
        destruct (Z_lt_le_dec (Z.abs m) (2 ^ 1043)) as [Hlt|Hge]; [|assumption].
        destruct (memory_tokens_returns options rlimits) as [mem Hret].
        { right. right. exists m. now split. }
        rewrite Hret in Hmem. discriminate.
      * unfold memory_tokens in Hmem. rewrite Hopt, Hm in Hmem. discriminate.
  - apply Nat.leb_gt in Hlen. rewrite cmdline_too_many_files by assumption.
    cbn [fst]. intros H. injection H as <-. left. now split.
Qed.

Lemma cmdline_raises_only_witness :
  (AssertionError "only one input file supported"
   = AssertionError "only one input file supported" /\
   (1 < List.length ["a.p"; "b.p"])%nat) \/
  (AssertionError "only one input file supported"
   = OverflowError "integer division result too large for a float" /\
   (List.length ["a.p"; "b.p"] <= 1)%nat /\
   has_memory_option [] = false /\
   exists m, Some (2 * 1024 ^ 3) = Some m /\ 2 ^ 1043 <= Z.abs m).
Proof.
  apply (cmdline_raises_only "vampire" [] {| input_files := ["a.p"; "b.p"] |}
           {| walltime := None; memory := Some (2 * 1024 ^ 3) |}
           (AssertionError "only one input file supported")).
  reflexivity.
Defined.

(** X20.  For a ceiling of [m] bytes with [0 <= m < 2 ^ 53], a task with at
    most one input file and options that name no memory limit, [cmdline]
    returns, and the number it appends after [-m] is the whole mebibytes of
    the ceiling: the largest [n] with [n * 1048576 <= m], so the tool is never
    given more than was requested, and less than one mebibyte gives [0]. *)
Theorem cmdline_memory_whole_mebibytes_returned (executable : string)
    (options : list string) (task : Task) (rlimits : ResourceLimits) (m : Z) :
  (List.length (input_files task) <= 1)%nat ->
  has_memory_option options = false -> memory rlimits = Some m ->
  0 <= m < 2 ^ 53 ->
  exists n,
    Tool.cmdline executable options task rlimits
    = (Return ([executable] ++ (options ++ time_tokens options rlimits ++ ["-m"; Py.str n])
               ++ input_files task),
       options ++ time_tokens options rlimits ++ ["-m"; Py.str n]) /\
    n * 1048576 <= m < (n + 1) * 1048576 /\
    (m < 1048576 -> n = 0).
Proof.
  intros Hlen Hopt Hmem Hm. exists (m / 1048576).
  rewrite cmdline_blocks by assumption.
  rewrite (memory_tokens_whole_mebibytes options rlimits m Hopt Hmem Hm).
  split; [reflexivity|]. split.
  - pose proof (Z.mul_div_le m 1048576). pose proof (Z.mul_succ_div_gt m 1048576). lia.
  - intros Hsmall. apply Z.div_small. lia.
Qed.

Lemma cmdline_memory_whole_mebibytes_returned_witness :
  exists n,
    Tool.cmdline "vampire" [] {| input_files := ["problem.p"] |}
      {| walltime := Some 30; memory := Some 2500000000 |}
    = (Return (["vampire"] ++ ([] ++ ["-t"; "30s"] ++ ["-m"; Py.str n]) ++ ["problem.p"]),
       [] ++ ["-t"; "30s"] ++ ["-m"; Py.str n]) /\
    n * 1048576 <= 2500000000 < (n + 1) * 1048576 /\
    (2500000000 < 1048576 -> n = 0).
Proof.
  apply (cmdline_memory_whole_mebibytes_returned "vampire" []
           {| input_files := ["problem.p"] |}
           {| walltime := Some 30; memory := Some 2500000000 |} 2500000000);
    [apply le_n | reflexivity | reflexivity | split; [discriminate | reflexivity]].
Defined.
